(** * WPODNet-Pytorch: the geometric decoding back end ([wpodnet/backend.py])

    A shallow embedding of [Predictor] and [Prediction]: the fixed-ratio
    resizer, the squeeze of the network output, the anchor selector, the
    affine decoder with its in-place clamp on the affine grid, the
    prediction pipeline, and the two renderings of a prediction.

    Conventions of the embedding.
    - Python [int] is [Z].  Python and NumPy floating-point numbers are
      embedded as exact rationals [Q]: every operation is the exact one, no
      rounding, no infinities, no NaN.  [int(x)] is truncation toward zero.
    - A raised exception is [Raise cls] where [cls] is the name of the Python
      exception class; a normal return is [Return v].
    - A NumPy array is its shape together with its row-major buffer; a view
      is an offset computation into the buffer of its base array, so a write
      through a view is a write into the base buffer.
    - The image library (PIL), the files behind [save] and the network
      (WPODNet) are interfaces; each of their calls may raise.
    - The anchor selector and the affine decoder are given on the grids of
      rank 2 and 3 they are written for; [Predictor.predict] runs on arrays
      of any rank, through the repository's own [_inference], and reaches
      them when the ranks are 2 and 3.
    - [astype(np.int32)] drops the fractional part of a number whose integer
      part is inside [int32]; what it gives outside is a parameter of the
      model.
    - The resizer is also given in IEEE binary64, as Python runs it, to
      compare the two on concrete images. *)

From Stdlib Require Import ZArith QArith Qround Lia Lqa String.
From Stdlib Require Import PrimFloat FloatOps SpecFloat Uint63.
From stdpp Require Import base list gmap strings.

Local Open Scope string_scope.
Local Open Scope Z_scope.

(** ** Exceptions *)

Inductive result (A : Type) : Type :=
| Return (a : A)
| Raise (cls : string).
Arguments Return {A} a.
Arguments Raise {A} cls.

Definition bind {A B : Type} (m : result A) (k : A -> result B) : result B :=
  match m with
  | Return a => k a
  | Raise cls => Raise cls
  end.

Notation "'do' x <- m ; k" := (bind m (fun x => k))
  (at level 10, x name, m at level 100, k at level 200).
Notation "'do' ' p <- m ; k" := (bind m (fun x => match x with p => k end))
  (at level 10, p pattern, m at level 100, k at level 200).

Definition returns {A : Type} (m : result A) : Prop := exists a, m = Return a.
Definition raises {A : Type} (m : result A) (cls : string) : Prop := m = Raise cls.

(** ** Python numerics *)

Module Py.

(** [a / b] on two [int]s: true division, [ZeroDivisionError] on [b = 0]. *)
Definition truediv (a b : Z) : result Q :=
  if b =? 0 then Raise "ZeroDivisionError" else Return (inject_Z a / inject_Z b)%Q.

(** [int(x)] on a float: the integer part, rounding toward zero. *)
Definition int (x : Q) : Z := Z.quot (Qnum x) (Z.pos (Qden x)).

(** [a % b] on [int]s with [b > 0] is [Z.modulo]: the result has the sign
    of the divisor. *)
Definition mod_ (a b : Z) : Z := a mod b.

(** [max(a, b)] on two numbers: [b] when [b > a], otherwise [a]. *)
Definition max (a b : Q) : Q := if QMicromega.Qlt_bool a b then b else a.

End Py.

(** ** The image library and the network, as interfaces *)

(** What the code uses of a [PIL.Image.Image]: its two dimensions, [resize]
    and the perspective [transform], which may raise. *)
Class PILImage (Image : Type) : Type := {
  height : Image -> Z;
  width : Image -> Z;
  resize : Image -> Z * Z -> result Image;
  transform : Image -> Z * Z -> list Q -> result Image
}.

(** [torchvision.transforms.functional._get_perspective_coeffs]: from the
    start points and the end points to the 8 coefficients, or an exception
    of the library. *)
Class Torchvision : Type := {
  _get_perspective_coeffs : list (list Z) -> list (list Z) -> result (list Q)
}.

(** ** [Predictor._resize_to_fixed_ratio] *)

Section FixedRatioResizer.
Context {Image : Type} {PIL : PILImage Image}.

(** The local variables of the method, as functions of [h] and [w]. *)
Definition wh_ratio (h w : Z) : result Q :=
  Py.truediv (Z.max h w) (Z.min h w).

Definition side (h w : Z) : result Z :=
  do r <- wh_ratio h w;
  Return (Py.int (r * 288)%Q).

Definition bound_dim (h w : Z) : result Z :=
  do s <- side h w;
  Return (Z.min (s + Py.mod_ s 16) 608).

Definition factor (h w : Z) : result Q :=
  do b <- bound_dim h w;
  Py.truediv b (Z.min h w).

(** [(reg_w, reg_h)] *)
Definition reg_size (h w : Z) : result (Z * Z) :=
  do f <- factor h w;
  Return (Py.int (inject_Z w * f)%Q, Py.int (inject_Z h * f)%Q).

Definition _resize_to_fixed_ratio (image : Image) : result Image :=
  let h := height image in
  let w := width image in
  do sz <- reg_size h w;
  resize image sz.

End FixedRatioResizer.

(** ** The resizer in IEEE binary64 *)

Module Binary64.

(** An [int] as a float; exact for [|z| < 2^53]. *)
Definition of_int (z : Z) : float :=
  if z <? 0 then PrimFloat.opp (PrimFloat.of_uint63 (Uint63.of_Z (- z)))
  else PrimFloat.of_uint63 (Uint63.of_Z z).

(** [int(x)]: truncation toward zero; an infinity raises [OverflowError]
    and a NaN [ValueError]. *)
Definition int (x : float) : result Z :=
  match Prim2SF x with
  | S754_zero _ => Return 0
  | S754_finite s m e =>
      let z := if 0 <=? e then Z.pos m * 2 ^ e else Z.quot (Z.pos m) (2 ^ (- e)) in
      Return (if s then - z else z)
  | S754_infinity _ => Raise "OverflowError"
  | S754_nan => Raise "ValueError"
  end.

Definition truediv (a b : Z) : result float :=
  if b =? 0 then Raise "ZeroDivisionError"
  else Return (PrimFloat.div (of_int a) (of_int b)).

Definition side64 (h w : Z) : result Z :=
  do r <- truediv (Z.max h w) (Z.min h w);
  int (PrimFloat.mul r (of_int 288)).

Definition bound_dim64 (h w : Z) : result Z :=
  do s <- side64 h w;
  Return (Z.min (s + Py.mod_ s 16) 608).

Definition reg_size64 (h w : Z) : result (Z * Z) :=
  do b <- bound_dim64 h w;
  do f <- truediv b (Z.min h w);
  do reg_w <- int (PrimFloat.mul (of_int w) f);
  do reg_h <- int (PrimFloat.mul (of_int h) f);
  Return (reg_w, reg_h).

End Binary64.

(** ** NumPy arrays *)

Module Np.

(** A matrix value that owns its data (the result of [matmul],
    [transpose], ...): a list of rows. *)
Definition matrix : Type := list (list Q).

(** An array of shape [(dim0, dim1)] over a row-major buffer. *)
Record ndarray2 : Type := {
  rows : nat;
  cols : nat;
  data2 : list Q
}.

(** An array of shape [(dim0, dim1, dim2)] over a row-major buffer. *)
Record ndarray3 : Type := {
  dim0 : nat;
  dim1 : nat;
  dim2 : nat;
  data3 : list Q
}.

(** The shape invariant every NumPy array satisfies. *)
Definition wf2 (a : ndarray2) : Prop := length (data2 a) = (rows a * cols a)%nat.
Definition wf3 (a : ndarray3) : Prop :=
  length (data3 a) = (dim0 a * (dim1 a * dim2 a))%nat.

(** Reading the buffer; offsets computed from in-range indices are inside
    the buffer by the shape invariant. *)
Definition read (buf : list Q) (off : nat) : Q := default 0%Q (buf !! off).

(** [a[y, x]] and [a[c, y, x]] for indices already normalised. *)
Definition offset2 (a : ndarray2) (y x : nat) : nat := (y * cols a + x)%nat.
Definition offset3 (a : ndarray3) (c y x : nat) : nat :=
  (c * (dim1 a * dim2 a) + (y * dim2 a + x))%nat.
Definition get2 (a : ndarray2) (y x : nat) : Q := read (data2 a) (offset2 a y x).
Definition get3 (a : ndarray3) (c y x : nat) : Q := read (data3 a) (offset3 a c y x).

(** [a[c, y, x] = v]: the array is the same object, its buffer changes. *)
Definition set3 (a : ndarray3) (c y x : nat) (v : Q) : ndarray3 :=
  {| dim0 := dim0 a; dim1 := dim1 a; dim2 := dim2 a;
     data3 := <[offset3 a c y x := v]> (data3 a) |}.

(** Integer indexing along an axis of length [n]: a negative index counts
    from the end, anything outside [-n, n) is an [IndexError]. *)
Definition index (i : Z) (n : nat) : result nat :=
  if (0 <=? i) && (i <? Z.of_nat n) then Return (Z.to_nat i)
  else if (- Z.of_nat n <=? i) && (i <? 0) then Return (Z.to_nat (i + Z.of_nat n))
  else Raise "IndexError".

(** [a.argmax()] over the flattened array: a left-to-right scan that
    replaces the running maximum only by a strictly greater element. *)
Fixpoint argmax_from (best : Q) (besti i : nat) (l : list Q) : nat :=
  match l with
  | [] => besti
  | x :: l' =>
      if QMicromega.Qlt_bool best x then argmax_from x i (S i) l'
      else argmax_from best besti (S i) l'
  end.

Definition argmax (a : ndarray2) : result nat :=
  match data2 a with
  | [] => Raise "ValueError"
  | x :: l => Return (argmax_from x 0 1 l)
  end.

(** [np.amax(a)]: the running maximum of the same scan. *)
Fixpoint amax_from (best : Q) (l : list Q) : Q :=
  match l with
  | [] => best
  | x :: l' => amax_from (Py.max best x) l'
  end.

Definition amax (a : ndarray2) : result Q :=
  match data2 a with
  | [] => Raise "ValueError"
  | x :: l => Return (amax_from x l)
  end.

(** [np.unravel_index(i, (rows, cols))] *)
Definition unravel_index (i : nat) (a : ndarray2) : result (Z * Z) :=
  if (i <? rows a * cols a)%nat
  then Return (Z.of_nat (i / cols a), Z.of_nat (i mod cols a))
  else Raise "ValueError".

(** The view [a[:, y, x].reshape((2, 3))] of a 3-dimensional array: entry
    [(i, j)] of the view is entry [(3 * i + j, y, x)] of [a], in the same
    buffer.  The basic index makes a strided 1-dimensional view of length
    [dim0 a]; reshaping it needs [dim0 a = 6], and stays a view. *)
Record view23 : Type := { vy : nat; vx : nat }.

Definition anchor_view (a : ndarray3) (y x : Z) : result view23 :=
  do y' <- index y (dim1 a);
  do x' <- index x (dim2 a);
  if (dim0 a =? 6)%nat then Return {| vy := y'; vx := x' |}
  else Raise "ValueError".

Definition vget (a : ndarray3) (v : view23) (i j : nat) : Q :=
  get3 a (3 * i + j) (vy v) (vx v).

(** [v[i, j] = x]: a write into the buffer of the base array. *)
Definition vset (a : ndarray3) (v : view23) (i j : nat) (x : Q) : ndarray3 :=
  set3 a (3 * i + j) (vy v) (vx v) x.

(** The 2 x 3 matrix of values seen through the view. *)
Definition vread (a : ndarray3) (v : view23) : matrix :=
  map (fun i => map (fun j => vget a v i j) (seq 0 3)) (seq 0 2).

Definition dot (u v : list Q) : Q := foldr Qplus 0%Q (zip_with Qmult u v).

Definition column (j : nat) (m : matrix) : list Q := map (fun r => read r j) m.

Definition transpose (m : matrix) : matrix :=
  match m with
  | [] => []
  | r :: _ => map (fun j => column j m) (seq 0 (length r))
  end.

Definition matmul (a b : matrix) : matrix :=
  map (fun r => map (dot r) (transpose b)) a.

(** [m * k] and [m[i] = f(m[i])] on an owned matrix. *)
Definition scale (m : matrix) (k : Q) : matrix := map (map (fun v => v * k)%Q) m.
Definition map_row (i : nat) (f : Q -> Q) (m : matrix) : matrix :=
  alter (map f) i m.
Definition map_column (j : nat) (f : Q -> Q) (m : matrix) : matrix :=
  map (alter f j) m.

End Np.

(** ** [Predictor]: anchor selection and affine decoding *)

(** The class attributes [_q] and [_scaling_const]. *)
Definition _q : Np.matrix :=
  [ [-0.5; 0.5; 0.5; -0.5];
    [-0.5; -0.5; 0.5; 0.5];
    [1; 1; 1; 1] ]%Q.

Definition _scaling_const : Q := 7.75.

Definition _get_max_anchor (probs : Np.ndarray2) : result (Z * Z) :=
  do i <- Np.argmax probs;
  Np.unravel_index i probs.

(** [_get_bounds] writes into its argument: the result carries the affine
    grid as the call leaves it, next to the returned 4 x 2 array. *)
Definition _get_bounds (affines : Np.ndarray3) (anchor_y anchor_x : Z)
  : result (Np.ndarray3 * Np.matrix) :=
  (* Compute theta *)
  do theta <- Np.anchor_view affines anchor_y anchor_x;
  let affines := Np.vset affines theta 0 0 (Py.max (Np.vget affines theta 0 0) 0) in
  let affines := Np.vset affines theta 1 1 (Py.max (Np.vget affines theta 1 1) 0) in
  (* Convert theta into the bounding polygon *)
  let bounds := Np.scale (Np.matmul (Np.vread affines theta) _q) _scaling_const in
  (* Normalize the bounds *)
  let grid_h := inject_Z (Z.of_nat (Np.dim1 affines)) in
  let grid_w := inject_Z (Z.of_nat (Np.dim2 affines)) in
  let bounds := Np.map_row 0 (fun v => (v + inject_Z anchor_x + 0.5) / grid_w)%Q bounds in
  let bounds := Np.map_row 1 (fun v => (v + inject_Z anchor_y + 0.5) / grid_h)%Q bounds in
  Return (affines, Np.transpose bounds).

(** ** [Prediction] *)

Record Prediction (Image : Type) : Type := {
  image : Image;
  bounds : list (list Z);
  confidence : Q
}.
Arguments image {Image} _.
Arguments bounds {Image} _.
Arguments confidence {Image} _.

(** ** [Prediction.warp] *)

(** [Image.save(fp)]: from the file system before the call to the file
    system after it, or an exception (no format known for the extension, a
    path that cannot be written).  Which file a path names, and what else
    a write changes, is the file system's own business. *)
Class ImageFile (Image World : Type) : Type := {
  save : Image -> string -> World -> result World
}.

Section Warp.
Context {Image World : Type} {PIL : PILImage Image} {TV : Torchvision}
        {Files : ImageFile Image World}.

Definition warp (self : Prediction Image) (fp : string) (width height : Z)
    (fs : World) : result World :=
  (* Get the perspective matrix *)
  let src_points := bounds self in
  let dst_points := [[0; 0]; [width; 0]; [width; height]; [0; height]] in
  do coeffs <- _get_perspective_coeffs src_points dst_points;
  do warpped <- transform (image self) (width, height) coeffs;
  save warpped fp fs.

End Warp.

(** Four points on one line: every pair of the differences to the first
    point has a zero cross product. *)
Definition cross (o p q : list Z) : Z :=
  let c (r : list Z) (i : nat) := default 0 (r !! i) in
  (c p 0%nat - c o 0%nat) * (c q 1%nat - c o 1%nat)
  - (c p 1%nat - c o 1%nat) * (c q 0%nat - c o 0%nat).

Definition collinear (pts : list (list Z)) : Prop :=
  match pts with
  | [p0; p1; p2; p3] =>
      cross p0 p1 p2 = 0 /\ cross p0 p1 p3 = 0 /\ cross p0 p2 p3 = 0
  | _ => False
  end.

(** ** The decoded quadrilateral, in the words of the specification *)

(** The canonical template offsets of corner [k], in the order top-left,
    top-right, bottom-right, bottom-left. *)
Definition Qx (k : nat) : Q := Np.read [-0.5; 0.5; 0.5; -0.5]%Q k.
Definition Qy (k : nat) : Q := Np.read [-0.5; -0.5; 0.5; 0.5]%Q k.

(** Corner [k] for the parameters [theta i j] at the anchor, reshaped
    row-major to 2 x 3. *)
Definition spec_corner (theta : nat -> nat -> Q) (anchor_y anchor_x : Z)
    (grid_h grid_w : nat) (k : nat) : Q * Q :=
  let theta00 := theta 0%nat 0%nat in
  let theta01 := theta 0%nat 1%nat in
  let theta02 := theta 0%nat 2%nat in
  let theta10 := theta 1%nat 0%nat in
  let theta11 := theta 1%nat 1%nat in
  let theta12 := theta 1%nat 2%nat in
  ( ((Py.max theta00 0 * Qx k + theta01 * Qy k + theta02) * 7.75
      + inject_Z anchor_x + 0.5) / inject_Z (Z.of_nat grid_w),
    ((theta10 * Qx k + Py.max theta11 0 * Qy k + theta12) * 7.75
      + inject_Z anchor_y + 0.5) / inject_Z (Z.of_nat grid_h) )%Q.

(** The affine grid with entries [(0, y, x)] and [(4, y, x)] replaced by
    their clamped values. *)
Definition clamped (a : Np.ndarray3) (y x : nat) : Np.ndarray3 :=
  let a0 := Np.set3 a 0 y x (Py.max (Np.get3 a 0 y x) 0) in
  Np.set3 a0 4 y x (Py.max (Np.get3 a 4 y x) 0).

(** A row [[x; y]] of the returned array is the point [c], as numbers. *)
Definition point_eq (row : list Q) (c : Q * Q) : Prop :=
  exists px py, row = [px; py] /\ (px == fst c)%Q /\ (py == snd c)%Q.

(** ** Concrete collaborators, for running the definitions *)

(** An image reduced to its size.  [resize] and [transform] give an image of
    the requested size, as PIL does. *)
Record Bitmap : Type := { bm_height : Z; bm_width : Z }.

#[export] Instance Bitmap_PIL : PILImage Bitmap := {|
  height := bm_height;
  width := bm_width;
  resize := fun _ sz => Return {| bm_height := snd sz; bm_width := fst sz |};
  transform := fun _ sz _ => Return {| bm_height := snd sz; bm_width := fst sz |}
|}.

(** A coefficient solve that answers with the given coefficients. *)
Definition solver_returning (coeffs : list Q) : Torchvision :=
  {| _get_perspective_coeffs := fun _ _ => Return coeffs |}.

(** A folder in which every path names its own file and every save works. *)
#[export] Instance Folder_Files : ImageFile Bitmap (gmap string Bitmap) := {|
  save := fun img fp fs => Return (<[fp := img]> fs)
|}.

(** A prediction whose four corners lie on the line [y = x]. *)
Definition collinear_prediction : Prediction Bitmap :=
  {| image := {| bm_height := 50; bm_width := 100 |};
     bounds := [[0; 0]; [1; 1]; [2; 2]; [3; 3]];
     confidence := 1 |}.

(** A probability grid of shape (1, 1). *)
Definition probs_1x1 : Np.ndarray2 :=
  {| Np.rows := 1; Np.cols := 1; Np.data2 := [0.9]%Q |}.

(** A 2 x 3 probability grid whose maximum 5 occurs at (0, 1) and (1, 0). *)
Definition sample_probs : Np.ndarray2 :=
  {| Np.rows := 2; Np.cols := 3; Np.data2 := [1; 5; 2; 5; 0; 1]%Q |}.

(** The identity-like parameters [a = 1, e = 1] on a 1 x 1 grid, and a
    1 x 2 grid with negative scale terms at its second anchor. *)
Definition identity_1x1 : Np.ndarray3 :=
  {| Np.dim0 := 6; Np.dim1 := 1; Np.dim2 := 1;
     Np.data3 := [1; 0; 0; 0; 1; 0]%Q |}.

Definition sample_1x2 : Np.ndarray3 :=
  {| Np.dim0 := 6; Np.dim1 := 1; Np.dim2 := 2;
     Np.data3 := [1; -3; 0; 7; 0; 8; 0; 0; -1; -5; 0; 1]%Q |}.

(** A 1 x 1 grid whose shear terms outweigh its scale terms. *)
Definition sheared_1x1 : Np.ndarray3 :=
  {| Np.dim0 := 6; Np.dim1 := 1; Np.dim2 := 1;
     Np.data3 := [0.1; 1; 0; 1; 0.1; 0]%Q |}.

(** ** [Prediction.annotate] *)

(** What [annotate] uses of PIL beyond [PILImage]: [Image.copy] and
    [ImageDraw.Draw(canvas).polygon], which draws on the canvas it was made
    for and may raise. *)
Class ImageDraw (Image : Type) : Type := {
  copy : Image -> Image;
  polygon : Image -> list (Z * Z) -> string -> Z -> result Image
}.

(** [(x, y) for x, y in bounds]: every row is unpacked into two names, a row
    of another length is a [ValueError]. *)
Definition unpack_xy (row : list Z) : result (Z * Z) :=
  match row with
  | [x; y] => Return (x, y)
  | _ => Raise "ValueError"
  end.

Fixpoint xy_pairs (rows : list (list Z)) : result (list (Z * Z)) :=
  match rows with
  | [] => Return []
  | row :: rows' =>
      do p <- unpack_xy row;
      do ps <- xy_pairs rows';
      Return (p :: ps)
  end.

Section Annotate.
Context {Image World : Type} {Draw : ImageDraw Image} {Files : ImageFile Image World}.

Definition annotate (self : Prediction Image) (fp : string) (outline : string)
    (width : Z) (fs : World) : result World :=
  let canvas := copy (image self) in
  do xy <- xy_pairs (bounds self);
  do canvas <- polygon canvas xy outline width;
  save canvas fp fs.

End Annotate.

(** ** [Predictor._inference] *)

(** Arrays of any rank, as the network returns them. *)
Module Nd.

Record ndarray : Type := {
  shape : list nat;
  data : list Q
}.

Definition size (s : list nat) : nat := foldr Nat.mul 1%nat s.

Definition wf (a : ndarray) : Prop := length (data a) = size (shape a).

(** [np.squeeze(a)]: the axes of length 1 are removed, the buffer is kept. *)
Definition squeeze (a : ndarray) : ndarray :=
  {| shape := filter (fun d => d <> 1%nat) (shape a); data := data a |}.

(** [a[0]]: the first block along axis 0; [IndexError] on an array without
    axes and on an empty first axis. *)
Definition first (a : ndarray) : result ndarray :=
  match shape a with
  | [] => Raise "IndexError"
  | d :: s =>
      if (d =? 0)%nat then Raise "IndexError"
      else Return {| shape := s; data := take (size s) (data a) |}
  end.

(** Entry [(y, x)] of an array of rank 2 and entry [(b, c, y, x)] of an
    array of rank 4, for indices in range. *)
Definition get2 (a : ndarray) (y x : nat) : option Q :=
  match shape a with
  | [_; d1] => data a !! (y * d1 + x)%nat
  | _ => None
  end.

Definition get4 (a : ndarray) (b c y x : nat) : option Q :=
  match shape a with
  | [_; d1; d2; d3] => data a !! (((b * d1 + c) * d2 + y) * d3 + x)%nat
  | _ => None
  end.

End Nd.

(** The forward pass of the network, on the tensor of the resized image:
    the probability and affine tensors, already as arrays. *)
Class Forward (Tensor : Type) : Type := {
  forward : Tensor -> result (Nd.ndarray * Nd.ndarray)
}.

Module Inference.

Definition _inference {Tensor : Type} {Net : Forward Tensor} (image : Tensor)
  : result (Nd.ndarray * Nd.ndarray) :=
  do '(probs, affines) <- forward image;
  (* Convert to squeezed numpy array *)
  do probs <- Nd.first (Nd.squeeze probs);
  let affines := Nd.squeeze affines in
  Return (probs, affines).

End Inference.

(** ** [Predictor] on the arrays [_inference] returns *)

(** The reductions of an array of any rank go over its buffer. *)
Module NdOps.

Definition amax (a : Nd.ndarray) : result Q :=
  match Nd.data a with
  | [] => Raise "ValueError"
  | x :: l => Return (Np.amax_from x l)
  end.

Definition argmax (a : Nd.ndarray) : result nat :=
  match Nd.data a with
  | [] => Raise "ValueError"
  | x :: l => Return (Np.argmax_from x 0 1 l)
  end.

(** The coordinates of flat index [i] in shape [s], row-major. *)
Fixpoint unravel (i : nat) (s : list nat) : list Z :=
  match s with
  | [] => []
  | _ :: s' => Z.of_nat (i / Nd.size s') :: unravel (i mod Nd.size s') s'
  end.

(** [np.unravel_index(i, s)]: a tuple with one coordinate per axis. *)
Definition unravel_index (i : nat) (s : list nat) : result (list Z) :=
  if (i <? Nd.size s)%nat then Return (unravel i s) else Raise "ValueError".

End NdOps.

(** [anchor_y, anchor_x = ...]: a tuple of another length than 2 is a
    [ValueError]. *)
Definition unpack_anchor (t : list Z) : result (Z * Z) :=
  match t with
  | [anchor_y; anchor_x] => Return (anchor_y, anchor_x)
  | _ => Raise "ValueError"
  end.

(** An array of rank 2 or 3 as the grid of that rank over the same buffer. *)
Definition grid2 (a : Nd.ndarray) (gh gw : nat) : Np.ndarray2 :=
  {| Np.rows := gh; Np.cols := gw; Np.data2 := Nd.data a |}.

Definition grid3 (a : Nd.ndarray) (d0 d1 d2 : nat) : Np.ndarray3 :=
  {| Np.dim0 := d0; Np.dim1 := d1; Np.dim2 := d2; Np.data3 := Nd.data a |}.

(** The methods of the class on arrays of any rank.  On a probability array
    of rank 2 and an affine array of rank 3 they are the definitions above;
    on other ranks they fail where NumPy and the tuple unpackings fail. *)
Module Predictor.

Definition _get_max_anchor (probs : Nd.ndarray) : result (list Z) :=
  do i <- NdOps.argmax probs;
  NdOps.unravel_index i (Nd.shape probs).

(** [affines[:, anchor_y, anchor_x]] needs 3 axes at least.  With more than
    3, the indexing checks the anchor, and then either the reshape to (2, 3)
    or the unpacking of [affines.shape] into three names is a [ValueError]. *)
Definition _get_bounds (affines : Nd.ndarray) (anchor_y anchor_x : Z)
  : result (Nd.ndarray * Np.matrix) :=
  match Nd.shape affines with
  | [d0; d1; d2] =>
      do '(a, bounds) <- _get_bounds (grid3 affines d0 d1 d2) anchor_y anchor_x;
      Return ({| Nd.shape := [d0; d1; d2]; Nd.data := Np.data3 a |}, bounds)
  | _ :: d1 :: d2 :: _ :: _ =>
      do _ <- Np.index anchor_y d1;
      do _ <- Np.index anchor_x d2;
      Raise "ValueError"
  | _ => Raise "IndexError"
  end.

Section Pipeline.
Context {Image : Type} {PIL : PILImage Image} {Net : Forward Image}.

(** What the platform's conversion gives for a number whose integer part
    is outside [int32]. *)
Variable int32_overflow : Z -> Z.

(** [astype(np.int32)] on one entry: the fractional part is dropped. *)
Definition astype_int32 (v : Q) : Z :=
  let z := Py.int v in
  if (- 2 ^ 31 <=? z) && (z <? 2 ^ 31) then z else int32_overflow z.

(** [_to_torch_image] and the move to the device are on the side of
    [forward], which takes the resized image. *)
Definition predict (img : Image) : result (Prediction Image) :=
  let orig_h := height img in
  let orig_w := width img in
  (* Resize the image to fixed ratio *)
  do resized <- _resize_to_fixed_ratio img;
  (* Inference with WPODNet *)
  do '(probs, affines) <- Inference._inference resized;
  (* Get the theta with maximum probability *)
  do max_prob <- NdOps.amax probs;
  do anchor <- _get_max_anchor probs;
  do '(anchor_y, anchor_x) <- unpack_anchor anchor;
  do '(_, bounds) <- _get_bounds affines anchor_y anchor_x;
  let bounds := Np.map_column 0 (fun v => v * inject_Z orig_w)%Q bounds in
  let bounds := Np.map_column 1 (fun v => v * inject_Z orig_h)%Q bounds in
  Return {| image := img;
            bounds := map (map astype_int32) bounds;
            confidence := max_prob |}.

End Pipeline.

End Predictor.

(** A grid of rank 2 as an array over the same buffer. *)
Definition of_grid2 (g : Np.ndarray2) : Nd.ndarray :=
  {| Nd.shape := [Np.rows g; Np.cols g]; Nd.data := Np.data2 g |}.

(** The pixel an [x] or [y] coordinate of the decoder becomes in a
    prediction for an image side of [n] pixels. *)
Definition pixel (int32_overflow : Z -> Z) (v : Q) (n : Z) : Z :=
  Predictor.astype_int32 int32_overflow (v * inject_Z n)%Q.

(** The anchor is inside the grid, counting negative indices from the end. *)
Definition anchor_inside (a : Np.ndarray3) (anchor_y anchor_x : Z) : Prop :=
  - Z.of_nat (Np.dim1 a) <= anchor_y < Z.of_nat (Np.dim1 a) /\
  - Z.of_nat (Np.dim2 a) <= anchor_x < Z.of_nat (Np.dim2 a).

(** ** More concrete collaborators *)

(** Drawing on an image reduced to its size changes nothing. *)
#[export] Instance Bitmap_Draw : ImageDraw Bitmap := {|
  copy := fun img => img;
  polygon := fun canvas _ _ _ => Return canvas
|}.

(** A forward pass that answers every tensor with the same pair of arrays. *)
Definition fixed_forward (out : Nd.ndarray * Nd.ndarray) : Forward unit :=
  {| forward := fun _ => Return out |}.

(** The output of a network on a 2 x 3 grid: probabilities of shape
    (1, 2, 2, 3) and affine parameters of shape (1, 6, 2, 3). *)
Definition forward_2x3 : Nd.ndarray * Nd.ndarray :=
  ({| Nd.shape := [1; 2; 2; 3]%nat;
      Nd.data := [0.1; 0.7; 0.2; 0.3; 0.0; 0.1;  0.9; 0.3; 0.8; 0.7; 1.0; 0.9]%Q |},
   {| Nd.shape := [1; 6; 2; 3]%nat;
      Nd.data := (replicate 6 1%Q ++ replicate 18 0%Q
                  ++ replicate 6 1%Q ++ replicate 6 0%Q)%list |}).

(** A 100 x 50 image. *)
Definition image_100x50 : Bitmap := {| bm_height := 50; bm_width := 100 |}.

(** The 1 x 2 grid with all four shape terms of its second anchor
    non-positive or zero. *)
Definition collapsed_1x2 : Np.ndarray3 :=
  {| Np.dim0 := 6; Np.dim1 := 1; Np.dim2 := 2;
     Np.data3 := [1; -3; 0; 0; 0; 8; 0; 0; -1; -5; 0; 1]%Q |}.

(** A conversion that gives the least [int32] outside the range. *)
Definition int32_min (z : Z) : Z := - 2 ^ 31.

(** Forward passes on a 2 x 2 and on a 3 x 3 grid: the probabilities have
    their maximum in the last cell of channel 0, the affine parameters are
    identity-like. *)
Definition forward_probs (g : nat) (channel0 : list Q) : Nd.ndarray :=
  {| Nd.shape := [1; 2; g; g]%nat;
     Nd.data := (channel0 ++ replicate (g * g) 0%Q)%list |}.

Definition forward_affines (g : nat) : Nd.ndarray :=
  {| Nd.shape := [1; 6; g; g]%nat;
     Nd.data := (replicate (g * g) 1%Q ++ replicate (3 * (g * g)) 0%Q
                 ++ replicate (g * g) 1%Q ++ replicate (g * g) 0%Q)%list |}.

Definition forward_probs_2x2 : Nd.ndarray := forward_probs 2 [0.1; 0.2; 0.3; 0.9]%Q.

Definition forward_probs_3x3 : Nd.ndarray :=
  forward_probs 3 [0.1; 0.2; 0.3; 0.1; 0.2; 0.3; 0.1; 0.2; 0.9]%Q.

(** Affine parameters on a 2 x 2 grid whose last anchor has negative scale
    terms and no shear. *)
Definition forward_affines_collapsed : Nd.ndarray :=
  {| Nd.shape := [1; 6; 2; 2]%nat;
     Nd.data := ([1; 1; 1; -3] ++ replicate 12 0 ++ [1; 1; 1; -1] ++ replicate 4 0)%Q%list |}.

(** A forward pass on any image that answers with the same pair of arrays. *)
Definition fixed_forward_on (out : Nd.ndarray * Nd.ndarray) : Forward Bitmap :=
  {| forward := fun _ => Return out |}.

(** * Properties *)

(** ** Numerics *)

Lemma inject_Z_nonzero (m : Z) : m <> 0 -> ~ (inject_Z m == 0)%Q.
Proof. unfold Qeq. simpl. lia. Qed.

Lemma Py_int_nonneg (q : Q) : (0 <= q)%Q -> Py.int q = Qfloor q.
Proof.
  destruct q as [n d]. unfold Qle, Py.int, Qfloor. simpl. intros Hn.
  apply Z.quot_div_nonneg; lia.
Qed.

Lemma Py_int_ge (z : Z) (q : Q) : 0 <= z -> (inject_Z z <= q)%Q -> z <= Py.int q.
Proof.
  intros Hz Hq.
  assert (Hq0 : (0 <= q)%Q).
  { apply Qle_trans with (inject_Z z); [|exact Hq].
    change 0%Q with (inject_Z 0). now rewrite <- Zle_Qle. }
  rewrite (Py_int_nonneg q Hq0).
  rewrite <- (Qfloor_Z z). now apply Qfloor_resp_le.
Qed.

(** [a * (b / m) >= b] for integers [a >= m >= 1] and [b >= 0]. *)
Lemma scale_ge (a b m : Z) :
  1 <= m -> m <= a -> 0 <= b ->
  (inject_Z b <= inject_Z a * (inject_Z b / inject_Z m))%Q.
Proof.
  intros Hm Ha Hb.
  assert (Hm' : (0 < inject_Z m)%Q).
  { change 0%Q with (inject_Z 0). rewrite <- Zlt_Qlt. lia. }
  assert (E : (inject_Z a * (inject_Z b / inject_Z m) == inject_Z (a * b) / inject_Z m)%Q).
  { rewrite inject_Z_mult. field. apply inject_Z_nonzero. lia. }
  rewrite E. apply Qle_shift_div_l; [exact Hm'|].
  rewrite <- inject_Z_mult, <- Zle_Qle. nia.
Qed.

(** ** The fixed-ratio resizer *)

Section ResizerFacts.
Variables h w : Z.
Hypothesis Hh : 1 <= h.
Hypothesis Hw : 1 <= w.

Lemma wh_ratio_returns :
  wh_ratio h w = Return (inject_Z (Z.max h w) / inject_Z (Z.min h w))%Q.
Proof.
  unfold wh_ratio, Py.truediv.
  destruct (Z.eqb_spec (Z.min h w) 0) as [E|_]; [lia|reflexivity].
Qed.

Lemma side_lower : exists s, side h w = Return s /\ 288 <= s.
Proof.
  unfold side. rewrite wh_ratio_returns. simpl. eexists; split; [reflexivity|].
  apply Py_int_ge; [lia|].
  pose proof (scale_ge (Z.max h w) 288 (Z.min h w)) as S.
  eapply Qle_trans; [apply S; lia|].
  apply Qle_lteq; right. field.
  apply inject_Z_nonzero. lia.
Qed.

Lemma bound_dim_range : exists b, bound_dim h w = Return b /\ 288 <= b <= 608.
Proof.
  destruct side_lower as (s & Hs & Hs288).
  unfold bound_dim. rewrite Hs. simpl. eexists; split; [reflexivity|].
  unfold Py.mod_. pose proof (Z.mod_pos_bound s 16). lia.
Qed.

Lemma reg_size_lower :
  exists reg_w reg_h, reg_size h w = Return (reg_w, reg_h) /\ 288 <= reg_w /\ 288 <= reg_h.
Proof.
  destruct bound_dim_range as (b & Hb & Hb288).
  unfold reg_size, factor. rewrite Hb. simpl. unfold Py.truediv.
  destruct (Z.eqb_spec (Z.min h w) 0) as [E|_]; [lia|]. simpl.
  do 2 eexists; split; [reflexivity|].
  split; (eapply Z.le_trans; [apply Hb288|]); apply Py_int_ge; try lia;
    apply scale_ge; lia.
Qed.

End ResizerFacts.

(** C9. For [h, w >= 1] the resizer computes its target size without raising,
    the size is a function of [(h, w)] alone (the same for every image of
    that height and width), and both [reg_w] and [reg_h] are at least 1; the
    call is then exactly the image library's [resize] to that size. *)
Theorem resize_size_total_positive (h w : Z) :
  1 <= h -> 1 <= w ->
  exists reg_w reg_h,
    reg_size h w = Return (reg_w, reg_h) /\ 1 <= reg_w /\ 1 <= reg_h /\
    forall (Image : Type) (PIL : PILImage Image) (img : Image),
      height img = h -> width img = w ->
      _resize_to_fixed_ratio img = resize img (reg_w, reg_h).
Proof.
  intros Hh Hw.
  destruct (reg_size_lower h w Hh Hw) as (rw & rh & E & Hrw & Hrh).
  exists rw, rh. repeat split; try lia; try exact E.
  intros Image PIL img Eh Ew. unfold _resize_to_fixed_ratio.
  rewrite Eh, Ew, E. reflexivity.
Qed.

Lemma resize_size_total_positive_witness :
  exists reg_w reg_h,
    reg_size 1 1 = Return (reg_w, reg_h) /\ 1 <= reg_w /\ 1 <= reg_h /\
    forall (Image : Type) (PIL : PILImage Image) (img : Image),
      height img = 1 -> width img = 1 ->
      _resize_to_fixed_ratio img = resize img (reg_w, reg_h).
Proof. apply (resize_size_total_positive 1 1); lia. Defined.

Example resize_1x1 :
  _resize_to_fixed_ratio {| bm_height := 1; bm_width := 1 |}
  = Return {| bm_height := 288; bm_width := 288 |}.
Proof. reflexivity. Qed.

(** C4, at a failing input.  For a 100 x 101 image [side] is 290 and
    [bound_dim] is 290 + 290 mod 16 = 292: below the cap of 608 and not a
    multiple of 16. *)
Theorem bound_dim_100_101_unaligned :
  side 100 101 = Return 290 /\
  bound_dim 100 101 = Return 292 /\
  292 < 608 /\ 292 mod 16 = 4.
Proof. repeat split; reflexivity. Qed.

(** The range half of C4 holds: [bound_dim] is in [[288, 608]], so in
    [[16, 608]]; and unless capped it is [side + side mod 16], a multiple of
    16 exactly when [side mod 16] is 0 or 8. *)
Lemma bound_dim_in_range (h w : Z) :
  1 <= h -> 1 <= w -> exists b, bound_dim h w = Return b /\ 16 <= b <= 608.
Proof.
  intros Hh Hw. destruct (bound_dim_range h w Hh Hw) as (b & E & Hb).
  exists b. split; [exact E|lia].
Qed.

Lemma bound_dim_residue (h w s b : Z) :
  side h w = Return s -> bound_dim h w = Return b -> b <> 608 ->
  b mod 16 = (2 * (s mod 16)) mod 16.
Proof.
  unfold bound_dim. intros -> [= <-]. unfold Py.mod_. intros Hcap.
  replace (Z.min (s + s mod 16) 608) with (s + s mod 16) by lia.
  rewrite Z.add_mod by lia. rewrite Z.mod_mod by lia.
  f_equal. lia.
Qed.

(** C7, as the code has it.  An image with a zero or negative dimension is
    not validated.  When the smaller dimension is 0 the first division
    raises [ZeroDivisionError]; when it is negative the arithmetic goes
    through and the computed size is handed to the image library. *)
Theorem resize_nonpositive_dimension {Image : Type} {PIL : PILImage Image} (img : Image) :
  height img <= 0 \/ width img <= 0 ->
  (Z.min (height img) (width img) = 0 /\
   _resize_to_fixed_ratio img = Raise "ZeroDivisionError")
  \/
  (Z.min (height img) (width img) < 0 /\
   exists sz, reg_size (height img) (width img) = Return sz /\
              _resize_to_fixed_ratio img = resize img sz).
Proof.
  intros Hneg. unfold _resize_to_fixed_ratio, reg_size, factor, bound_dim, side, wh_ratio.
  unfold Py.truediv.
  destruct (Z.eqb_spec (Z.min (height img) (width img)) 0) as [E|E].
  - left. split; [exact E|reflexivity].
  - right. split; [lia|]. simpl. eexists. split; reflexivity.
Qed.

Lemma resize_nonpositive_dimension_witness :
  let img := {| bm_height := 0; bm_width := 5 |} in
  (Z.min (height img) (width img) = 0 /\
   _resize_to_fixed_ratio img = Raise "ZeroDivisionError")
  \/
  (Z.min (height img) (width img) < 0 /\
   exists sz, reg_size (height img) (width img) = Return sz /\
              _resize_to_fixed_ratio img = resize img sz).
Proof.
  intros img. apply (resize_nonpositive_dimension img). left. simpl. lia.
Defined.

(** C7 as stated fails: a 5-wide image of height 0 makes the resizer raise
    [ZeroDivisionError], and an image of height -5 and width 3 makes it
    raise nothing before [resize] is called with [(100, -168)]. *)
Lemma resize_zero_height_not_InvalidImageError :
  let img := {| bm_height := 0; bm_width := 5 |} in
  (height img <= 0 \/ width img <= 0) /\
  _resize_to_fixed_ratio img = Raise "ZeroDivisionError" /\
  ~ raises (_resize_to_fixed_ratio img) "InvalidImageError".
Proof.
  simpl. split; [lia|]. split; [reflexivity|]. unfold raises. discriminate.
Qed.

Example resize_negative_height_size : reg_size (-5) 3 = Return (100, -168).
Proof. reflexivity. Qed.

(** On the images used above the binary64 run and the exact one agree. *)
Example binary64_agrees :
  Binary64.side64 100 101 = side 100 101 /\
  Binary64.bound_dim64 100 101 = bound_dim 100 101 /\
  Forall (fun hw => Binary64.reg_size64 (fst hw) (snd hw) = reg_size (fst hw) (snd hw))
    [(100, 101); (1, 1); (0, 5); (-5, 3); (50, 100); (480, 640); (1080, 1920)].
Proof. repeat split; repeat constructor; vm_compute; reflexivity. Qed.

(** ** NumPy buffers *)

Lemma read_insert_eq (buf : list Q) (off : nat) (v : Q) :
  (off < length buf)%nat -> Np.read (<[off := v]> buf) off = v.
Proof. intros Hlt. unfold Np.read. now rewrite list_lookup_insert_eq. Qed.

Lemma read_insert_ne (buf : list Q) (off off' : nat) (v : Q) :
  off <> off' -> Np.read (<[off := v]> buf) off' = Np.read buf off'.
Proof. intros Hne. unfold Np.read. now rewrite list_lookup_insert_ne. Qed.

Section Offsets.
Variable a : Np.ndarray3.
Hypothesis Hwf : Np.wf3 a.

Lemma offset3_lt (c y x : nat) :
  (c < Np.dim0 a)%nat -> (y < Np.dim1 a)%nat -> (x < Np.dim2 a)%nat ->
  (Np.offset3 a c y x < length (Np.data3 a))%nat.
Proof.
  unfold Np.offset3. rewrite Hwf. intros Hc Hy Hx.
  assert (Hin : (y * Np.dim2 a + x < Np.dim1 a * Np.dim2 a)%nat).
  { apply Nat.lt_le_trans with (S y * Np.dim2 a)%nat; [simpl; lia|].
    apply Nat.mul_le_mono_r. lia. }
  apply Nat.lt_le_trans with (S c * (Np.dim1 a * Np.dim2 a))%nat; [simpl; lia|].
  apply Nat.mul_le_mono_r. lia.
Qed.

Lemma inner_offset_lt (y x : nat) :
  (y < Np.dim1 a)%nat -> (x < Np.dim2 a)%nat ->
  (y * Np.dim2 a + x < Np.dim1 a * Np.dim2 a)%nat.
Proof.
  intros Hy Hx.
  apply Nat.lt_le_trans with (S y * Np.dim2 a)%nat; [simpl; lia|].
  apply Nat.mul_le_mono_r. lia.
Qed.

Lemma offset3_inj (c y x c' y' x' : nat) :
  (y < Np.dim1 a)%nat -> (x < Np.dim2 a)%nat ->
  (y' < Np.dim1 a)%nat -> (x' < Np.dim2 a)%nat ->
  Np.offset3 a c y x = Np.offset3 a c' y' x' -> c = c' /\ y = y' /\ x = x'.
Proof.
  unfold Np.offset3. intros Hy Hx Hy' Hx' E.
  pose proof (inner_offset_lt y x Hy Hx) as Hin.
  pose proof (inner_offset_lt y' x' Hy' Hx') as Hin'.
  assert (Ec : c = c') by nia. subst c'.
  assert (Ey : y = y') by nia. subst y'.
  repeat split. lia.
Qed.

Lemma get3_set3_eq (c y x : nat) (v : Q) :
  (c < Np.dim0 a)%nat -> (y < Np.dim1 a)%nat -> (x < Np.dim2 a)%nat ->
  Np.get3 (Np.set3 a c y x v) c y x = v.
Proof. intros. unfold Np.get3, Np.set3. simpl. apply read_insert_eq. now apply offset3_lt. Qed.

Lemma get3_set3_ne (c y x c' y' x' : nat) (v : Q) :
  (y < Np.dim1 a)%nat -> (x < Np.dim2 a)%nat ->
  (y' < Np.dim1 a)%nat -> (x' < Np.dim2 a)%nat ->
  (c, y, x) <> (c', y', x') ->
  Np.get3 (Np.set3 a c y x v) c' y' x' = Np.get3 a c' y' x'.
Proof.
  intros Hy Hx Hy' Hx' Hne. unfold Np.get3, Np.set3. simpl.
  apply read_insert_ne. intros E. apply Hne.
  destruct (offset3_inj c y x c' y' x') as (-> & -> & ->); auto.
Qed.

Lemma set3_wf (c y x : nat) (v : Q) : Np.wf3 (Np.set3 a c y x v).
Proof. unfold Np.wf3, Np.set3. simpl. rewrite length_insert. exact Hwf. Qed.

End Offsets.

Lemma set3_set3 (a : Np.ndarray3) (c y x : nat) (u v : Q) :
  Np.set3 (Np.set3 a c y x u) c y x v = Np.set3 a c y x v.
Proof. unfold Np.set3. simpl. f_equal. apply list_insert_insert_eq. Qed.

(** ** The affine decoder *)

Lemma anchor_view_in_range (a : Np.ndarray3) (anchor_y anchor_x : Z) :
  Np.dim0 a = 6%nat ->
  0 <= anchor_y < Z.of_nat (Np.dim1 a) ->
  0 <= anchor_x < Z.of_nat (Np.dim2 a) ->
  Np.anchor_view a anchor_y anchor_x
  = Return {| Np.vy := Z.to_nat anchor_y; Np.vx := Z.to_nat anchor_x |}.
Proof.
  intros Hdim0 Hy Hx. unfold Np.anchor_view, Np.index.
  destruct (Z.leb_spec 0 anchor_y); [|lia].
  destruct (Z.ltb_spec anchor_y (Z.of_nat (Np.dim1 a))); [|lia].
  destruct (Z.leb_spec 0 anchor_x); [|lia].
  destruct (Z.ltb_spec anchor_x (Z.of_nat (Np.dim2 a))); [|lia].
  simpl. rewrite Hdim0. reflexivity.
Qed.

Section ClampedGrid.
Variable a : Np.ndarray3.
Variables y x : nat.
Hypothesis Hwf : Np.wf3 a.
Hypothesis Hdim0 : Np.dim0 a = 6%nat.
Hypothesis Hy : (y < Np.dim1 a)%nat.
Hypothesis Hx : (x < Np.dim2 a)%nat.

Lemma clamped_get_0 : Np.get3 (clamped a y x) 0 y x = Py.max (Np.get3 a 0 y x) 0.
Proof using Hwf Hdim0 Hy Hx.
  unfold clamped. cbv zeta.
  rewrite get3_set3_ne; auto using set3_wf; try discriminate.
  apply get3_set3_eq; auto. lia.
Qed.

Lemma clamped_get_4 : Np.get3 (clamped a y x) 4 y x = Py.max (Np.get3 a 4 y x) 0.
Proof using Hwf Hdim0 Hy Hx.
  unfold clamped. cbv zeta.
  apply get3_set3_eq; auto using set3_wf. simpl. lia.
Qed.

Lemma clamped_get_other (c y' x' : nat) :
  (y' < Np.dim1 a)%nat -> (x' < Np.dim2 a)%nat ->
  (c, y', x') <> (0%nat, y, x) -> (c, y', x') <> (4%nat, y, x) ->
  Np.get3 (clamped a y x) c y' x' = Np.get3 a c y' x'.
Proof using Hwf Hy Hx.
  intros Hy' Hx' N0 N4. unfold clamped. cbv zeta.
  rewrite get3_set3_ne; auto using set3_wf.
  rewrite get3_set3_ne; auto.
Qed.

(** The two writes through the view, as the code performs them (the
    second reads the grid the first has written), give [clamped]. *)
Lemma view_writes_clamped :
  let v := {| Np.vy := y; Np.vx := x |} in
  let a0 := Np.vset a v 0 0 (Py.max (Np.vget a v 0 0) 0) in
  Np.vset a0 v 1 1 (Py.max (Np.vget a0 v 1 1) 0) = clamped a y x.
Proof using Hwf Hy Hx.
  unfold clamped, Np.vset, Np.vget. cbn [Np.vy Np.vx Nat.mul Nat.add].
  cbv zeta. f_equal. f_equal.
  rewrite get3_set3_ne; auto; discriminate.
Qed.

End ClampedGrid.

(** [_get_bounds] in range: the view is taken, the grid is clamped through
    it, and the polygon is computed from the clamped grid. *)
Lemma get_bounds_in_range (a : Np.ndarray3) (anchor_y anchor_x : Z) :
  Np.wf3 a -> Np.dim0 a = 6%nat ->
  0 <= anchor_y < Z.of_nat (Np.dim1 a) ->
  0 <= anchor_x < Z.of_nat (Np.dim2 a) ->
  let y := Z.to_nat anchor_y in
  let x := Z.to_nat anchor_x in
  let grid_h := inject_Z (Z.of_nat (Np.dim1 a)) in
  let grid_w := inject_Z (Z.of_nat (Np.dim2 a)) in
  _get_bounds a anchor_y anchor_x =
  Return (clamped a y x,
          Np.transpose
            (Np.map_row 1 (fun v => (v + inject_Z anchor_y + 0.5) / grid_h)%Q
               (Np.map_row 0 (fun v => (v + inject_Z anchor_x + 0.5) / grid_w)%Q
                  (Np.scale
                     (Np.matmul (Np.vread (clamped a y x) {| Np.vy := y; Np.vx := x |}) _q)
                     _scaling_const)))).
Proof.
  intros Hwf Hdim0 Hy Hx y x grid_h grid_w.
  assert (Hylt : (y < Np.dim1 a)%nat) by (unfold y; lia).
  assert (Hxlt : (x < Np.dim2 a)%nat) by (unfold x; lia).
  unfold _get_bounds. rewrite anchor_view_in_range by assumption.
  cbn [bind]. cbv zeta. fold y x.
  rewrite (view_writes_clamped a y x Hwf Hylt Hxlt). reflexivity.
Qed.

Lemma Py_max_0_nonneg (v : Q) : (0 <= Py.max v 0)%Q.
Proof.
  unfold Py.max. destruct (QMicromega.Qlt_bool v 0) eqn:E.
  - apply Qle_refl.
  - apply Qnot_lt_le. intros Hlt. apply QMicromega.Qlt_bool_iff in Hlt. congruence.
Qed.

(** C1. In range, the decoder returns 4 rows [[x; y]], one per corner in the
    order top-left, top-right, bottom-right, bottom-left, and row [k] is the
    point given by the closed formula on the 6 parameters stored at the
    anchor (read before the call). *)
Theorem get_bounds_corner_formula (a : Np.ndarray3) (anchor_y anchor_x : Z) :
  Np.wf3 a -> Np.dim0 a = 6%nat ->
  0 <= anchor_y < Z.of_nat (Np.dim1 a) ->
  0 <= anchor_x < Z.of_nat (Np.dim2 a) ->
  let theta i j := Np.get3 a (3 * i + j) (Z.to_nat anchor_y) (Z.to_nat anchor_x) in
  let corner := spec_corner theta anchor_y anchor_x (Np.dim1 a) (Np.dim2 a) in
  exists a' top_left top_right bottom_right bottom_left,
    _get_bounds a anchor_y anchor_x
    = Return (a', [top_left; top_right; bottom_right; bottom_left]) /\
    point_eq top_left (corner 0%nat) /\
    point_eq top_right (corner 1%nat) /\
    point_eq bottom_right (corner 2%nat) /\
    point_eq bottom_left (corner 3%nat).
Proof.
  intros Hwf Hdim0 Hy Hx theta corner.
  rewrite (get_bounds_in_range a anchor_y anchor_x Hwf Hdim0 Hy Hx).
  assert (Hgw : ~ (inject_Z (Z.of_nat (Np.dim2 a)) == 0)%Q) by (apply inject_Z_nonzero; lia).
  assert (Hgh : ~ (inject_Z (Z.of_nat (Np.dim1 a)) == 0)%Q) by (apply inject_Z_nonzero; lia).
  assert (Hylt : (Z.to_nat anchor_y < Np.dim1 a)%nat) by lia.
  assert (Hxlt : (Z.to_nat anchor_x < Np.dim2 a)%nat) by lia.
  pose proof (clamped_get_0 a _ _ Hwf Hdim0 Hylt Hxlt) as E0.
  pose proof (clamped_get_4 a _ _ Hwf Hdim0 Hylt Hxlt) as E4.
  assert (Eo : forall c, c <> 0%nat -> c <> 4%nat ->
             Np.get3 (clamped a (Z.to_nat anchor_y) (Z.to_nat anchor_x)) c
               (Z.to_nat anchor_y) (Z.to_nat anchor_x)
             = Np.get3 a c (Z.to_nat anchor_y) (Z.to_nat anchor_x)).
  { intros c N0 N4.
    apply (clamped_get_other a _ _ Hwf Hylt Hxlt); auto; congruence. }
  cbn -[Np.get3 clamped Qplus Qmult Qdiv inject_Z Py.max _scaling_const].
  unfold Np.vget. cbn [Np.vy Np.vx Nat.mul Nat.add].
  rewrite E0, E4, !Eo by discriminate.
  do 5 eexists. split; [reflexivity|].
  unfold point_eq, corner, spec_corner, theta, Qx, Qy, _scaling_const.
  cbn -[Np.get3 Qplus Qmult Qdiv inject_Z Py.max].
  repeat split; do 2 eexists; (split; [reflexivity|]); split; field; assumption.
Qed.

Lemma get_bounds_corner_formula_witness :
  let a := sample_1x2 in
  let theta i j := Np.get3 a (3 * i + j) (Z.to_nat 0) (Z.to_nat 1) in
  let corner := spec_corner theta 0 1 (Np.dim1 a) (Np.dim2 a) in
  exists a' top_left top_right bottom_right bottom_left,
    _get_bounds a 0 1
    = Return (a', [top_left; top_right; bottom_right; bottom_left]) /\
    point_eq top_left (corner 0%nat) /\
    point_eq top_right (corner 1%nat) /\
    point_eq bottom_right (corner 2%nat) /\
    point_eq bottom_left (corner 3%nat).
Proof.
  apply (get_bounds_corner_formula sample_1x2 0 1);
    [reflexivity | reflexivity | simpl; lia | simpl; lia].
Defined.

(** C10. In range, the call leaves the affine grid with the entries
    [(0, anchor_y, anchor_x)] and [(4, anchor_y, anchor_x)] replaced by
    [max(original, 0)], which is non-negative, and with every other entry
    and the shape as they were. *)
Theorem get_bounds_clamps_grid_in_place (a : Np.ndarray3) (anchor_y anchor_x : Z) :
  Np.wf3 a -> Np.dim0 a = 6%nat ->
  0 <= anchor_y < Z.of_nat (Np.dim1 a) ->
  0 <= anchor_x < Z.of_nat (Np.dim2 a) ->
  let y := Z.to_nat anchor_y in
  let x := Z.to_nat anchor_x in
  exists a' b,
    _get_bounds a anchor_y anchor_x = Return (a', b) /\
    (Np.dim0 a', Np.dim1 a', Np.dim2 a') = (Np.dim0 a, Np.dim1 a, Np.dim2 a) /\
    length (Np.data3 a') = length (Np.data3 a) /\
    Np.get3 a' 0 y x = Py.max (Np.get3 a 0 y x) 0 /\
    Np.get3 a' 4 y x = Py.max (Np.get3 a 4 y x) 0 /\
    (0 <= Np.get3 a' 0 y x)%Q /\ (0 <= Np.get3 a' 4 y x)%Q /\
    forall c y' x' : nat,
      (y' < Np.dim1 a)%nat -> (x' < Np.dim2 a)%nat ->
      (c, y', x') <> (0%nat, y, x) -> (c, y', x') <> (4%nat, y, x) ->
      Np.get3 a' c y' x' = Np.get3 a c y' x'.
Proof.
  intros Hwf Hdim0 Hy Hx y x.
  assert (Hylt : (y < Np.dim1 a)%nat) by (unfold y; lia).
  assert (Hxlt : (x < Np.dim2 a)%nat) by (unfold x; lia).
  rewrite (get_bounds_in_range a anchor_y anchor_x Hwf Hdim0 Hy Hx). cbv zeta. fold y x.
  do 2 eexists. split; [reflexivity|].
  rewrite (clamped_get_0 a y x Hwf Hdim0 Hylt Hxlt).
  rewrite (clamped_get_4 a y x Hwf Hdim0 Hylt Hxlt).
  split; [reflexivity|].
  split; [unfold clamped, Np.set3; simpl; now rewrite !length_insert|].
  do 2 (split; [reflexivity|]).
  do 2 (split; [apply Py_max_0_nonneg|]).
  intros c y' x' Hy' Hx' N0 N4.
  now apply (clamped_get_other a y x Hwf Hylt Hxlt).
Qed.

Lemma get_bounds_clamps_grid_in_place_witness :
  let a := sample_1x2 in
  let y := Z.to_nat 0 in
  let x := Z.to_nat 1 in
  exists a' b,
    _get_bounds a 0 1 = Return (a', b) /\
    (Np.dim0 a', Np.dim1 a', Np.dim2 a') = (Np.dim0 a, Np.dim1 a, Np.dim2 a) /\
    length (Np.data3 a') = length (Np.data3 a) /\
    Np.get3 a' 0 y x = Py.max (Np.get3 a 0 y x) 0 /\
    Np.get3 a' 4 y x = Py.max (Np.get3 a 4 y x) 0 /\
    (0 <= Np.get3 a' 0 y x)%Q /\ (0 <= Np.get3 a' 4 y x)%Q /\
    forall c y' x' : nat,
      (y' < Np.dim1 a)%nat -> (x' < Np.dim2 a)%nat ->
      (c, y', x') <> (0%nat, y, x) -> (c, y', x') <> (4%nat, y, x) ->
      Np.get3 a' c y' x' = Np.get3 a c y' x'.
Proof.
  apply (get_bounds_clamps_grid_in_place sample_1x2 0 1);
    [reflexivity | reflexivity | simpl; lia | simpl; lia].
Defined.

Example get_bounds_sample_buffer :
  exists b, _get_bounds sample_1x2 0 1
            = Return ({| Np.dim0 := 6; Np.dim1 := 1; Np.dim2 := 2;
                         Np.data3 := [1; 0; 0; 7; 0; 8; 0; 0; -1; 0; 0; 1]%Q |}, b).
Proof. eexists. vm_compute. reflexivity. Qed.

(** The same at the level of the buffer: only the two offsets of the view's
    entries [(0, 0)] and [(1, 1)] are written. *)
Lemma get_bounds_buffer_frame (a a' : Np.ndarray3) (anchor_y anchor_x : Z)
    (b : Np.matrix) (off : nat) :
  Np.wf3 a -> Np.dim0 a = 6%nat ->
  0 <= anchor_y < Z.of_nat (Np.dim1 a) ->
  0 <= anchor_x < Z.of_nat (Np.dim2 a) ->
  _get_bounds a anchor_y anchor_x = Return (a', b) ->
  off <> Np.offset3 a 0 (Z.to_nat anchor_y) (Z.to_nat anchor_x) ->
  off <> Np.offset3 a 4 (Z.to_nat anchor_y) (Z.to_nat anchor_x) ->
  Np.data3 a' !! off = Np.data3 a !! off.
Proof.
  intros Hwf Hdim0 Hy Hx E N0 N4.
  rewrite (get_bounds_in_range a anchor_y anchor_x Hwf Hdim0 Hy Hx) in E.
  injection E as <- _. unfold clamped, Np.set3. simpl.
  rewrite list_lookup_insert_ne by (unfold Np.offset3 in *; simpl; lia).
  now rewrite list_lookup_insert_ne by lia.
Qed.

(** Any negative scale term decodes as a zero one: after the clamp both
    grids are the same grid. *)
Lemma get_bounds_negative_scale (a : Np.ndarray3) (anchor_y anchor_x : Z) (v : Q) :
  Np.wf3 a -> Np.dim0 a = 6%nat ->
  0 <= anchor_y < Z.of_nat (Np.dim1 a) ->
  0 <= anchor_x < Z.of_nat (Np.dim2 a) ->
  (v < 0)%Q ->
  let y := Z.to_nat anchor_y in
  let x := Z.to_nat anchor_x in
  _get_bounds (Np.set3 a 0 y x v) anchor_y anchor_x
  = _get_bounds (Np.set3 a 0 y x 0) anchor_y anchor_x.
Proof.
  intros Hwf Hdim0 Hy Hx Hv y x.
  assert (Hylt : (y < Np.dim1 a)%nat) by (unfold y; lia).
  assert (Hxlt : (x < Np.dim2 a)%nat) by (unfold x; lia).
  assert (Hc : clamped (Np.set3 a 0 y x v) y x = clamped (Np.set3 a 0 y x 0) y x).
  { unfold clamped. cbv zeta.
    rewrite !get3_set3_eq by (auto; lia).
    rewrite !(get3_set3_ne a 0 y x 4 y x) by (auto; discriminate).
    rewrite !set3_set3. f_equal. f_equal.
    unfold Py.max. apply QMicromega.Qlt_bool_iff in Hv. now rewrite Hv. }
  rewrite (get_bounds_in_range (Np.set3 a 0 y x v) anchor_y anchor_x) by (auto using set3_wf).
  rewrite (get_bounds_in_range (Np.set3 a 0 y x 0) anchor_y anchor_x) by (auto using set3_wf).
  cbv zeta. fold y x. rewrite Hc. reflexivity.
Qed.

(** C8. With [theta[0,0] = -2.0] at the anchor the decoder returns what it
    returns with [theta[0,0] = 0] there, all other parameters being the
    same: the same quadrilateral (and the same grid after the call), whose
    top and bottom edges have zero x-extent rather than a negative one. *)
Theorem get_bounds_minus_two_as_zero (a : Np.ndarray3) (anchor_y anchor_x : Z) :
  Np.wf3 a -> Np.dim0 a = 6%nat ->
  0 <= anchor_y < Z.of_nat (Np.dim1 a) ->
  0 <= anchor_x < Z.of_nat (Np.dim2 a) ->
  let y := Z.to_nat anchor_y in
  let x := Z.to_nat anchor_x in
  exists a' top_left top_right bottom_right bottom_left,
    _get_bounds (Np.set3 a 0 y x (-2.0)) anchor_y anchor_x
    = Return (a', [top_left; top_right; bottom_right; bottom_left]) /\
    _get_bounds (Np.set3 a 0 y x 0) anchor_y anchor_x
    = Return (a', [top_left; top_right; bottom_right; bottom_left]) /\
    (Np.read top_right 0 == Np.read top_left 0)%Q /\
    (Np.read bottom_right 0 == Np.read bottom_left 0)%Q.
Proof.
  intros Hwf Hdim0 Hy Hx y x.
  assert (Hneg : (-2.0 < 0)%Q) by reflexivity.
  pose proof (get_bounds_negative_scale a anchor_y anchor_x (-2.0) Hwf Hdim0 Hy Hx Hneg) as En.
  cbv zeta in En. fold y x in En. rewrite En. clear En.
  assert (Hylt : (y < Np.dim1 a)%nat) by (unfold y; lia).
  assert (Hxlt : (x < Np.dim2 a)%nat) by (unfold x; lia).
  assert (Hgw : ~ (inject_Z (Z.of_nat (Np.dim2 a)) == 0)%Q) by (apply inject_Z_nonzero; lia).
  pose proof (set3_wf a Hwf 0 y x 0) as Hwf0.
  rewrite (get_bounds_in_range (Np.set3 a 0 y x 0) anchor_y anchor_x Hwf0 Hdim0 Hy Hx).
  cbv zeta. fold y x.
  pose proof (clamped_get_0 (Np.set3 a 0 y x 0) y x Hwf0 Hdim0 Hylt Hxlt) as E0.
  rewrite get3_set3_eq in E0 by (auto; lia).
  cbn -[Np.get3 clamped Qplus Qmult Qdiv inject_Z Py.max _scaling_const].
  unfold Np.vget. cbn [Np.vy Np.vx Nat.mul Nat.add Np.dim2 Np.set3 Np.dim1].
  rewrite E0.
  do 5 eexists. split; [reflexivity|]. split; [reflexivity|].
  cbn -[Np.get3 clamped Qplus Qmult Qdiv inject_Z _scaling_const].
  change (Py.max 0 0) with 0%Q. split; field; exact Hgw.
Qed.

Lemma get_bounds_minus_two_as_zero_witness :
  let a := sample_1x2 in
  let y := Z.to_nat 0 in
  let x := Z.to_nat 1 in
  exists a' top_left top_right bottom_right bottom_left,
    _get_bounds (Np.set3 a 0 y x (-2.0)) 0 1
    = Return (a', [top_left; top_right; bottom_right; bottom_left]) /\
    _get_bounds (Np.set3 a 0 y x 0) 0 1
    = Return (a', [top_left; top_right; bottom_right; bottom_left]) /\
    (Np.read top_right 0 == Np.read top_left 0)%Q /\
    (Np.read bottom_right 0 == Np.read bottom_left 0)%Q.
Proof.
  apply (get_bounds_minus_two_as_zero sample_1x2 0 1);
    [reflexivity | reflexivity | simpl; lia | simpl; lia].
Defined.

(** C3, as the code has it.  For the identity-like parameters on a 1 x 1
    grid the decoder returns the corners in the order top-left, top-right,
    bottom-right, bottom-left, and leaves the grid as it was; the corners
    are those of the square of side 7.75 centred at (0.5, 0.5). *)
Theorem get_bounds_identity_corners :
  exists top_left top_right bottom_right bottom_left,
    _get_bounds identity_1x1 0 0
    = Return (identity_1x1, [top_left; top_right; bottom_right; bottom_left]) /\
    point_eq top_left (-3.375, -3.375)%Q /\
    point_eq top_right (4.375, -3.375)%Q /\
    point_eq bottom_right (4.375, 4.375)%Q /\
    point_eq bottom_left (-3.375, 4.375)%Q.
Proof.
  do 4 eexists. split; [vm_compute; reflexivity|].
  unfold point_eq.
  repeat split; do 2 eexists; (split; [reflexivity|]); split; reflexivity.
Qed.

(** C3 as stated fails: the top-left corner has x = -3.375, outside [0, 1]. *)
Lemma get_bounds_identity_top_left_outside :
  exists a' px py rest,
    _get_bounds identity_1x1 0 0 = Return (a', [px; py] :: rest) /\
    ~ (0 <= px /\ px <= 1)%Q.
Proof.
  do 4 eexists. split; [vm_compute; reflexivity|].
  intros [H0 _]. revert H0. unfold Qle. simpl. lia.
Qed.

(** ** The anchor selector *)

Lemma Py_max_lt (a b : Q) : (a < b)%Q -> Py.max a b = b.
Proof. intros Hlt. unfold Py.max. apply QMicromega.Qlt_bool_iff in Hlt. now rewrite Hlt. Qed.

Lemma Py_max_ge (a b : Q) : ~ (a < b)%Q -> Py.max a b = a.
Proof.
  intros Hge. unfold Py.max. destruct (QMicromega.Qlt_bool a b) eqn:E; [|reflexivity].
  apply QMicromega.Qlt_bool_iff in E. contradiction.
Qed.

(** The scan keeps the first position of the greatest element seen: either
    nothing in [l] beats the running maximum, or the result is the first
    position [k] of [l] holding the greatest element of [l]. *)
Lemma argmax_scan (l : list Q) (best : Q) (besti i : nat) :
  let j := Np.argmax_from best besti i l in
  let m := Np.amax_from best l in
  (j = besti /\ m = best /\ forall k v, l !! k = Some v -> (v <= best)%Q)
  \/
  (exists k, j = (i + k)%nat /\ l !! k = Some m /\ (best < m)%Q /\
     (forall k' v, l !! k' = Some v -> (v <= m)%Q) /\
     (forall k' v, (k' < k)%nat -> l !! k' = Some v -> (v < m)%Q)).
Proof.
  revert best besti i. induction l as [|x l IH]; intros best besti i; simpl.
  - left. repeat split. intros k v Hk. destruct k; discriminate.
  - destruct (QMicromega.Qlt_bool best x) eqn:Hbx.
    + apply QMicromega.Qlt_bool_iff in Hbx. rewrite (Py_max_lt _ _ Hbx).
      destruct (IH x i (S i)) as [(Ej & Em & Hall) | (k & Ej & Hk & Hlt & Hall & Hfirst)].
      * right. exists 0%nat. rewrite Ej, Em. repeat split.
        -- lia.
        -- exact Hbx.
        -- intros [|k'] v Hv; simpl in Hv.
           ++ injection Hv as <-. apply Qle_refl.
           ++ eauto.
        -- intros k' v Hk'. lia.
      * right. exists (S k). rewrite Ej. repeat split.
        -- lia.
        -- exact Hk.
        -- eapply Qlt_trans; eauto.
        -- intros [|k'] v Hv; simpl in Hv.
           ++ injection Hv as <-. now apply Qlt_le_weak.
           ++ eauto.
        -- intros [|k'] v Hk' Hv; simpl in Hv.
           ++ injection Hv as <-. exact Hlt.
           ++ apply (Hfirst k'); [lia|exact Hv].
    + assert (Hxb : (x <= best)%Q).
      { apply Qnot_lt_le. intros Hlt. apply QMicromega.Qlt_bool_iff in Hlt. congruence. }
      rewrite Py_max_ge by (now apply Qle_not_lt).
      destruct (IH best besti (S i)) as [(Ej & Em & Hall) | (k & Ej & Hk & Hlt & Hall & Hfirst)].
      * left. repeat split; auto.
        intros [|k'] v Hv; simpl in Hv.
        -- now injection Hv as <-.
        -- eauto.
      * right. exists (S k). rewrite Ej. repeat split.
        -- lia.
        -- exact Hk.
        -- exact Hlt.
        -- intros [|k'] v Hv; simpl in Hv.
           ++ injection Hv as <-. apply Qlt_le_weak. eapply Qle_lt_trans; eauto.
           ++ eauto.
        -- intros [|k'] v Hk' Hv; simpl in Hv.
           ++ injection Hv as <-. eapply Qle_lt_trans; eauto.
           ++ apply (Hfirst k'); [lia|exact Hv].
Qed.

(** On a non-empty array [argmax] and [amax] return, the element at the
    returned position is the returned maximum, nothing is greater, and
    everything before it is smaller. *)
Lemma argmax_first_maximum (p : Np.ndarray2) :
  (0 < length (Np.data2 p))%nat ->
  exists j m,
    Np.argmax p = Return j /\ Np.amax p = Return m /\
    Np.data2 p !! j = Some m /\
    (forall k v, Np.data2 p !! k = Some v -> (v <= m)%Q) /\
    (forall k v, (k < j)%nat -> Np.data2 p !! k = Some v -> (v < m)%Q).
Proof.
  unfold Np.argmax, Np.amax. destruct (Np.data2 p) as [|x l]; simpl; [lia|]. intros _.
  do 2 eexists. split; [reflexivity|]. split; [reflexivity|].
  destruct (argmax_scan l x 0 1) as [(Ej & Em & Hall) | (k & Ej & Hk & Hlt & Hall & Hfirst)].
  - rewrite Ej, Em. repeat split.
    + intros [|k] v Hv; simpl in Hv.
      * injection Hv as <-. apply Qle_refl.
      * eauto.
    + intros k v Hk. lia.
  - rewrite Ej. repeat split.
    + exact Hk.
    + intros [|k'] v Hv; simpl in Hv.
      * injection Hv as <-. now apply Qlt_le_weak.
      * eauto.
    + intros [|k'] v Hk' Hv; simpl in Hv.
      * injection Hv as <-. exact Hlt.
      * apply (Hfirst k'); [lia|exact Hv].
Qed.

Section AnchorFacts.
Variable probs : Np.ndarray2.
Hypothesis Hwf : Np.wf2 probs.
Hypothesis Hrows : (0 < Np.rows probs)%nat.
Hypothesis Hcols : (0 < Np.cols probs)%nat.

Lemma offset2_lt (y x : nat) :
  (y < Np.rows probs)%nat -> (x < Np.cols probs)%nat ->
  (Np.offset2 probs y x < length (Np.data2 probs))%nat.
Proof using Hwf Hrows Hcols.
  intros Hy Hx. unfold Np.offset2. rewrite Hwf.
  apply Nat.lt_le_trans with (S y * Np.cols probs)%nat; [simpl; lia|].
  apply Nat.mul_le_mono_r. lia.
Qed.

Lemma get2_lookup (y x : nat) :
  (y < Np.rows probs)%nat -> (x < Np.cols probs)%nat ->
  Np.data2 probs !! Np.offset2 probs y x = Some (Np.get2 probs y x).
Proof using Hwf Hrows Hcols.
  intros Hy Hx. unfold Np.get2, Np.read.
  destruct (lookup_lt_is_Some_2 (Np.data2 probs) (Np.offset2 probs y x)) as [v Hv].
  - now apply offset2_lt.
  - now rewrite Hv.
Qed.

(** The selected anchor, its bounds, and the three properties of the
    maximum there. *)
Lemma get_max_anchor_spec :
  exists ay ax : nat,
    _get_max_anchor probs = Return (Z.of_nat ay, Z.of_nat ax) /\
    (ay < Np.rows probs)%nat /\ (ax < Np.cols probs)%nat /\
    Np.amax probs = Return (Np.get2 probs ay ax) /\
    (forall y x, (y < Np.rows probs)%nat -> (x < Np.cols probs)%nat ->
                 (Np.get2 probs y x <= Np.get2 probs ay ax)%Q) /\
    (forall y x, (y < Np.rows probs)%nat -> (x < Np.cols probs)%nat ->
                 (Np.get2 probs y x == Np.get2 probs ay ax)%Q ->
                 (ay < y \/ (ay = y /\ ax <= x))%nat).
Proof using Hwf Hrows Hcols.
  destruct (argmax_first_maximum probs) as (j & m & Ej & Em & Hj & Hall & Hfirst).
  { rewrite Hwf. nia. }
  assert (Hjlt : (j < Np.rows probs * Np.cols probs)%nat).
  { rewrite <- Hwf. eapply lookup_lt_Some; eauto. }
  pose proof (Nat.div_mod_eq j (Np.cols probs)) as Hdm.
  assert (Hax : (j mod Np.cols probs < Np.cols probs)%nat)
    by (apply Nat.mod_upper_bound; lia).
  assert (Hay : (j / Np.cols probs < Np.rows probs)%nat)
    by (apply Nat.Div0.div_lt_upper_bound; lia).
  assert (Hoff : Np.offset2 probs (j / Np.cols probs) (j mod Np.cols probs) = j)
    by (unfold Np.offset2; lia).
  assert (Hget : Np.get2 probs (j / Np.cols probs) (j mod Np.cols probs) = m).
  { pose proof (get2_lookup _ _ Hay Hax) as Hl. rewrite Hoff in Hl. congruence. }
  exists (j / Np.cols probs)%nat, (j mod Np.cols probs)%nat.
  split.
  { unfold _get_max_anchor. rewrite Ej. cbn [bind]. unfold Np.unravel_index.
    destruct (Nat.ltb_spec j (Np.rows probs * Np.cols probs)); [reflexivity|lia]. }
  rewrite Hget. repeat split; auto.
  - intros y x Hy Hx. eapply Hall. now apply get2_lookup.
  - intros y x Hy Hx Heq.
    destruct (Nat.lt_ge_cases (Np.offset2 probs y x) j) as [Hlt|Hge].
    + exfalso. pose proof (Hfirst _ _ Hlt (get2_lookup y x Hy Hx)) as Hsm.
      rewrite Heq in Hsm. now apply Qlt_irrefl in Hsm.
    + unfold Np.offset2 in Hge.
      destruct (Nat.lt_trichotomy (j / Np.cols probs) y) as [Hl|[He|Hg]].
      * now left.
      * right. split; [exact He|]. subst y. lia.
      * exfalso.
        assert (S y * Np.cols probs <= j / Np.cols probs * Np.cols probs)%nat
          by (apply Nat.mul_le_mono_r; lia).
        simpl in *. lia.
Qed.

End AnchorFacts.

(** ** [predict] *)

Lemma index_nonneg (i : nat) (n : nat) :
  Np.index (Z.of_nat i) n = if (i <? n)%nat then Return i else Raise "IndexError".
Proof.
  unfold Np.index.
  destruct (Z.leb_spec 0 (Z.of_nat i)); [|lia]. simpl.
  destruct (Z.ltb_spec (Z.of_nat i) (Z.of_nat n)); destruct (Nat.ltb_spec i n); try lia.
  - now rewrite Nat2Z.id.
  - destruct (Z.ltb_spec (Z.of_nat i) 0); [lia|]. now rewrite andb_false_r.
Qed.

Lemma get_bounds_returns (a : Np.ndarray3) (ay ax : nat) :
  Np.dim0 a = 6%nat -> (ay < Np.dim1 a)%nat -> (ax < Np.dim2 a)%nat ->
  returns (_get_bounds a (Z.of_nat ay) (Z.of_nat ax)).
Proof.
  intros Hdim0 Hy Hx. unfold _get_bounds.
  rewrite anchor_view_in_range by (auto; lia). cbn [bind]. eexists. reflexivity.
Qed.

Lemma get_bounds_index_error (a : Np.ndarray3) (ay ax : nat) :
  ~ ((ay < Np.dim1 a)%nat /\ (ax < Np.dim2 a)%nat) ->
  _get_bounds a (Z.of_nat ay) (Z.of_nat ax) = Raise "IndexError".
Proof.
  intros Hout. unfold _get_bounds, Np.anchor_view. rewrite !index_nonneg.
  destruct (Nat.ltb_spec ay (Np.dim1 a)); [|reflexivity].
  destruct (Nat.ltb_spec ax (Np.dim2 a)); [|reflexivity].
  exfalso. auto.
Qed.

Example get_max_anchor_tie : _get_max_anchor sample_probs = Return (0, 1).
Proof. reflexivity. Qed.

Example get_max_anchor_1x1 : _get_max_anchor probs_1x1 = Return (0, 0).
Proof. reflexivity. Qed.

Example get_max_anchor_empty :
  _get_max_anchor {| Np.rows := 0; Np.cols := 3; Np.data2 := [] |} = Raise "ValueError".
Proof. reflexivity. Qed.

(** ** [warp] *)

(** C5, as the code has it.  [warp] does not examine the source points: it
    raises exactly when the coefficient solve raises, or the solve returns
    and the image transform raises, or both return and the save raises, and
    then with that same exception; otherwise the file system is the one the
    save of the transformed image at [fp] leaves. *)
Theorem warp_outcome {Image World : Type} {PIL : PILImage Image} {TV : Torchvision}
    {Files : ImageFile Image World}
    (self : Prediction Image) (fp : string) (width height : Z) (fs : World) :
  let src_points := bounds self in
  let dst_points := [[0; 0]; [width; 0]; [width; height]; [0; height]] in
  (forall cls,
     warp self fp width height fs = Raise cls <->
     (_get_perspective_coeffs src_points dst_points = Raise cls \/
      exists coeffs,
        _get_perspective_coeffs src_points dst_points = Return coeffs /\
        (transform (image self) (width, height) coeffs = Raise cls \/
         exists warpped,
           transform (image self) (width, height) coeffs = Return warpped /\
           save warpped fp fs = Raise cls))) /\
  (forall fs',
     warp self fp width height fs = Return fs' <->
     exists coeffs warpped,
       _get_perspective_coeffs src_points dst_points = Return coeffs /\
       transform (image self) (width, height) coeffs = Return warpped /\
       save warpped fp fs = Return fs').
Proof.
  intros src_points dst_points. unfold warp. fold src_points dst_points.
  destruct (_get_perspective_coeffs src_points dst_points) as [coeffs|cls0]; cbn [bind].
  - destruct (transform (image self) (width, height) coeffs) as [warpped|cls1] eqn:Ht;
      cbn [bind].
    + split.
      * intros cls. split.
        -- intros Hs. right. exists coeffs. split; [reflexivity|]. right. eauto.
        -- intros [Hs | (c & Hs & [Ht' | (w' & Ht' & Hsave)])]; try discriminate.
           ++ injection Hs as <-. congruence.
           ++ injection Hs as <-. rewrite Ht in Ht'. injection Ht' as <-. exact Hsave.
      * intros fs'. split.
        -- intros Hs. eauto.
        -- intros (c & w' & [= <-] & Ht' & Hsave).
           rewrite Ht in Ht'. injection Ht' as <-. exact Hsave.
    + split.
      * intros cls. split.
        -- intros [= <-]. right. eauto.
        -- intros [Hs | (c & [= <-] & [Ht' | (w' & Ht' & _)])]; congruence.
      * intros fs'. split; [discriminate|].
        intros (c & w' & [= <-] & Ht' & _). congruence.
  - split.
    + intros cls. split.
      * intros [= <-]. now left.
      * intros [Hs | (c & Hs & _)]; [congruence|discriminate].
    + intros fs'. split; [discriminate|].
      intros (c & w' & Hs & _). discriminate.
Qed.

(** C5 as stated fails: on four collinear source points, whatever
    coefficients the solve returns, [warp] raises nothing and the
    transformed image is written. *)
Lemma warp_collinear_not_SingularTransformError :
  collinear (bounds collinear_prediction) /\
  forall coeffs : list Q,
    warp (TV := solver_returning coeffs) collinear_prediction "plate.jpg" 208 60
      (∅ : gmap string Bitmap)
    = Return {[ "plate.jpg" := {| bm_height := 60; bm_width := 208 |} ]} /\
    ~ raises (warp (TV := solver_returning coeffs) collinear_prediction "plate.jpg" 208 60
                (∅ : gmap string Bitmap)) "SingularTransformError".
Proof.
  split; [repeat split|]. intros coeffs.
  assert (E : warp (TV := solver_returning coeffs) collinear_prediction "plate.jpg" 208 60
                (∅ : gmap string Bitmap)
              = Return {[ "plate.jpg" := {| bm_height := 60; bm_width := 208 |} ]}).
  { unfold warp. cbn. now rewrite insert_empty. }
  split; [exact E|]. unfold raises. rewrite E. discriminate.
Qed.

(** * Further properties of the back end *)

(** ** Indexing and the errors of the decoder *)

Lemma index_inside (i : Z) (n : nat) :
  - Z.of_nat n <= i < Z.of_nat n ->
  Np.index i n = Return (Z.to_nat (i mod Z.of_nat n)) /\
  (Z.to_nat (i mod Z.of_nat n) < n)%nat.
Proof.
  intros Hin. unfold Np.index.
  assert (Hn : 0 < Z.of_nat n) by lia.
  pose proof (Z.mod_pos_bound i (Z.of_nat n) Hn) as Hm.
  split; [|lia].
  destruct (Z.leb_spec 0 i) as [Hpos|Hneg].
  - destruct (Z.ltb_spec i (Z.of_nat n)); [|lia]. simpl.
    now rewrite Z.mod_small by lia.
  - simpl. destruct (Z.leb_spec (- Z.of_nat n) i); [|lia].
    destruct (Z.ltb_spec i 0); [|lia]. simpl.
    f_equal. f_equal.
    rewrite <- (Z.mod_small (i + Z.of_nat n) (Z.of_nat n)) by lia.
    rewrite <- (Z.mod_add i 1 (Z.of_nat n)) by lia. f_equal. lia.
Qed.

Lemma index_outside (i : Z) (n : nat) :
  ~ (- Z.of_nat n <= i < Z.of_nat n) -> Np.index i n = Raise "IndexError".
Proof.
  intros Hout. unfold Np.index.
  destruct (Z.leb_spec 0 i); destruct (Z.ltb_spec i (Z.of_nat n)); simpl; try lia;
    destruct (Z.leb_spec (- Z.of_nat n) i); destruct (Z.ltb_spec i 0); simpl;
      try lia; reflexivity.
Qed.

Lemma anchor_view_cases (a : Np.ndarray3) (anchor_y anchor_x : Z) :
  (~ anchor_inside a anchor_y anchor_x /\
   Np.anchor_view a anchor_y anchor_x = Raise "IndexError")
  \/
  (anchor_inside a anchor_y anchor_x /\ Np.dim0 a <> 6%nat /\
   Np.anchor_view a anchor_y anchor_x = Raise "ValueError")
  \/
  (anchor_inside a anchor_y anchor_x /\ Np.dim0 a = 6%nat /\
   exists v, Np.anchor_view a anchor_y anchor_x = Return v).
Proof.
  unfold anchor_inside, Np.anchor_view.
  destruct (Z_le_dec (- Z.of_nat (Np.dim1 a)) anchor_y) as [Hy1|Hy1];
    [destruct (Z_lt_dec anchor_y (Z.of_nat (Np.dim1 a))) as [Hy2|Hy2]|].
  - destruct (index_inside anchor_y (Np.dim1 a)) as [-> _]; [lia|]. cbn [bind].
    destruct (Z_le_dec (- Z.of_nat (Np.dim2 a)) anchor_x) as [Hx1|Hx1];
      [destruct (Z_lt_dec anchor_x (Z.of_nat (Np.dim2 a))) as [Hx2|Hx2]|].
    + destruct (index_inside anchor_x (Np.dim2 a)) as [-> _]; [lia|]. cbn [bind].
      destruct (Nat.eqb_spec (Np.dim0 a) 6) as [E|E].
      * right. right. repeat split; try lia. eauto.
      * right. left. repeat split; try lia; try exact E.
    + left. rewrite index_outside by lia. split; [lia|reflexivity].
    + left. rewrite index_outside by lia. split; [lia|reflexivity].
  - left. rewrite index_outside by lia. split; [lia|reflexivity].
  - left. rewrite index_outside by lia. split; [lia|reflexivity].
Qed.

(** X1. The decoder fails in exactly two ways.  It raises [IndexError]
    exactly when the anchor is outside the grid (negative indices count
    from the end), it raises [ValueError] exactly when the anchor is inside
    and the grid does not have 6 parameter planes, and it returns exactly
    when the anchor is inside a grid of 6 planes. *)
Theorem get_bounds_outcomes (a : Np.ndarray3) (anchor_y anchor_x : Z) :
  (_get_bounds a anchor_y anchor_x = Raise "IndexError"
   <-> ~ anchor_inside a anchor_y anchor_x) /\
  (_get_bounds a anchor_y anchor_x = Raise "ValueError"
   <-> anchor_inside a anchor_y anchor_x /\ Np.dim0 a <> 6%nat) /\
  (returns (_get_bounds a anchor_y anchor_x)
   <-> anchor_inside a anchor_y anchor_x /\ Np.dim0 a = 6%nat).
Proof.
  unfold _get_bounds, returns.
  destruct (anchor_view_cases a anchor_y anchor_x)
    as [(Hout & ->) | [(Hin & Hd & ->) | (Hin & Hd & v & ->)]]; cbn [bind].
  all: split; [|split]; (split; intros Hc);
    first [ discriminate | reflexivity | tauto
          | (destruct Hc as [r Hr]; discriminate) | (eexists; reflexivity) ].
Qed.

Example get_bounds_errors_sample :
  _get_bounds sample_1x2 0 2 = Raise "IndexError" /\
  _get_bounds sample_1x2 (-2) 0 = Raise "IndexError" /\
  _get_bounds {| Np.dim0 := 5; Np.dim1 := 1; Np.dim2 := 2; Np.data3 := replicate 10 0%Q |} 0 1
  = Raise "ValueError" /\
  returns (_get_bounds sample_1x2 (-1) (-2)).
Proof. repeat split. eexists. vm_compute. reflexivity. Qed.

(** ** The geometry of the decoded quadrilateral *)

(** [_get_bounds] at any anchor inside the grid: [y] and [x] are the cell the
    anchor addresses, the normalisation uses the anchor as it was passed. *)
Lemma get_bounds_at (a : Np.ndarray3) (anchor_y anchor_x : Z) :
  Np.wf3 a -> Np.dim0 a = 6%nat -> anchor_inside a anchor_y anchor_x ->
  let y := Z.to_nat (anchor_y mod Z.of_nat (Np.dim1 a)) in
  let x := Z.to_nat (anchor_x mod Z.of_nat (Np.dim2 a)) in
  let grid_h := inject_Z (Z.of_nat (Np.dim1 a)) in
  let grid_w := inject_Z (Z.of_nat (Np.dim2 a)) in
  (y < Np.dim1 a)%nat /\ (x < Np.dim2 a)%nat /\
  _get_bounds a anchor_y anchor_x =
  Return (clamped a y x,
          Np.transpose
            (Np.map_row 1 (fun v => (v + inject_Z anchor_y + 0.5) / grid_h)%Q
               (Np.map_row 0 (fun v => (v + inject_Z anchor_x + 0.5) / grid_w)%Q
                  (Np.scale
                     (Np.matmul (Np.vread (clamped a y x) {| Np.vy := y; Np.vx := x |}) _q)
                     _scaling_const)))).
Proof.
  intros Hwf Hdim0 [Hy Hx] y x grid_h grid_w.
  destruct (index_inside anchor_y (Np.dim1 a) Hy) as [Ey Hylt].
  destruct (index_inside anchor_x (Np.dim2 a) Hx) as [Ex Hxlt].
  fold y in Ey, Hylt. fold x in Ex, Hxlt.
  split; [exact Hylt|]. split; [exact Hxlt|].
  unfold _get_bounds, Np.anchor_view. rewrite Ey, Ex. cbn [bind].
  rewrite Hdim0. cbn [Nat.eqb bind]. cbv zeta.
  rewrite (view_writes_clamped a y x Hwf Hylt Hxlt). reflexivity.
Qed.

(** The four rows of the result, coordinate by coordinate, against the
    closed formula on the parameters found in the addressed cell. *)
Lemma get_bounds_rows (a : Np.ndarray3) (anchor_y anchor_x : Z) :
  Np.wf3 a -> Np.dim0 a = 6%nat -> anchor_inside a anchor_y anchor_x ->
  let y := Z.to_nat (anchor_y mod Z.of_nat (Np.dim1 a)) in
  let x := Z.to_nat (anchor_x mod Z.of_nat (Np.dim2 a)) in
  let theta i j := Np.get3 a (3 * i + j) y x in
  let corner := spec_corner theta anchor_y anchor_x (Np.dim1 a) (Np.dim2 a) in
  exists x0 y0 x1 y1 x2 y2 x3 y3,
    _get_bounds a anchor_y anchor_x
    = Return (clamped a y x, [[x0; y0]; [x1; y1]; [x2; y2]; [x3; y3]]) /\
    ((x0 == fst (corner 0%nat)) /\ (y0 == snd (corner 0%nat)) /\
     (x1 == fst (corner 1%nat)) /\ (y1 == snd (corner 1%nat)) /\
     (x2 == fst (corner 2%nat)) /\ (y2 == snd (corner 2%nat)) /\
     (x3 == fst (corner 3%nat)) /\ (y3 == snd (corner 3%nat)))%Q.
Proof.
  intros Hwf Hdim0 Hin y x theta corner.
  destruct (get_bounds_at a anchor_y anchor_x Hwf Hdim0 Hin) as (Hylt & Hxlt & E).
  fold y x in Hylt, Hxlt, E. rewrite E. clear E.
  destruct Hin as [Hy Hx].
  assert (Hgw : ~ (inject_Z (Z.of_nat (Np.dim2 a)) == 0)%Q) by (apply inject_Z_nonzero; lia).
  assert (Hgh : ~ (inject_Z (Z.of_nat (Np.dim1 a)) == 0)%Q) by (apply inject_Z_nonzero; lia).
  pose proof (clamped_get_0 a y x Hwf Hdim0 Hylt Hxlt) as E0.
  pose proof (clamped_get_4 a y x Hwf Hdim0 Hylt Hxlt) as E4.
  assert (Eo : forall c, c <> 0%nat -> c <> 4%nat ->
             Np.get3 (clamped a y x) c y x = Np.get3 a c y x).
  { intros c N0 N4. apply (clamped_get_other a y x Hwf Hylt Hxlt); auto; congruence. }
  cbn -[Np.get3 clamped Qplus Qmult Qdiv inject_Z Py.max _scaling_const].
  unfold Np.vget. cbn [Np.vy Np.vx Nat.mul Nat.add].
  rewrite E0, E4, !Eo by discriminate.
  do 8 eexists. split; [reflexivity|].
  unfold corner, spec_corner, theta, Qx, Qy, _scaling_const.
  cbn -[Np.get3 Qplus Qmult Qdiv inject_Z Py.max].
  repeat split; field; assumption.
Qed.

Lemma Qdiv_le_mono (p q d : Q) : (0 < d)%Q -> (p <= q)%Q -> (p / d <= q / d)%Q.
Proof.
  intros Hd Hpq. unfold Qdiv. apply Qmult_le_compat_r; [exact Hpq|].
  apply Qlt_le_weak. now apply Qinv_lt_0_compat.
Qed.

Lemma grid_dim_pos (n : nat) (i : Z) :
  - Z.of_nat n <= i < Z.of_nat n -> (0 < inject_Z (Z.of_nat n))%Q.
Proof. intros Hi. change 0%Q with (inject_Z 0). rewrite <- Zlt_Qlt. lia. Qed.

Lemma Py_max_0_of_nonpos (v : Q) : (v <= 0)%Q -> (Py.max v 0 == 0)%Q.
Proof.
  intros Hv. unfold Py.max. destruct (QMicromega.Qlt_bool v 0) eqn:E; [reflexivity|].
  apply Qle_antisym; [exact Hv|].
  apply Qnot_lt_le. intros Hlt. apply QMicromega.Qlt_bool_iff in Hlt. congruence.
Qed.

(** X2. In exact arithmetic the clamp orders the corners along each edge
    of the decoded quadrilateral: in the returned rows the top-right corner
    is never left of the top-left one, the bottom-right never left of the
    bottom-left, and the two bottom corners are never above the top corners
    on their side.  The orientation of the quadrilateral is not fixed by
    this: the shear terms are not clamped. *)
Theorem get_bounds_edges_ordered (a : Np.ndarray3) (anchor_y anchor_x : Z) :
  Np.wf3 a -> Np.dim0 a = 6%nat -> anchor_inside a anchor_y anchor_x ->
  exists a' x0 y0 x1 y1 x2 y2 x3 y3,
    _get_bounds a anchor_y anchor_x
    = Return (a', [[x0; y0]; [x1; y1]; [x2; y2]; [x3; y3]]) /\
    (x0 <= x1 /\ x3 <= x2 /\ y0 <= y3 /\ y1 <= y2)%Q.
Proof.
  intros Hwf Hdim0 Hin.
  destruct (get_bounds_rows a anchor_y anchor_x Hwf Hdim0 Hin)
    as (x0 & y0 & x1 & y1 & x2 & y2 & x3 & y3 & E &
        Hx0 & Hy0 & Hx1 & Hy1 & Hx2 & Hy2 & Hx3 & Hy3).
  exists (clamped a (Z.to_nat (anchor_y mod Z.of_nat (Np.dim1 a)))
                    (Z.to_nat (anchor_x mod Z.of_nat (Np.dim2 a)))).
  exists x0, y0, x1, y1, x2, y2, x3, y3. split; [exact E|].
  destruct Hin as [Hy Hx].
  pose proof (grid_dim_pos _ _ Hy) as Hgh. pose proof (grid_dim_pos _ _ Hx) as Hgw.
  rewrite Hx0, Hy0, Hx1, Hy1, Hx2, Hy2, Hx3, Hy3.
  unfold spec_corner, Qx, Qy. cbn -[Np.get3 Qplus Qmult Qdiv inject_Z Py.max].
  set (y := Z.to_nat (anchor_y mod Z.of_nat (Np.dim1 a))).
  set (x := Z.to_nat (anchor_x mod Z.of_nat (Np.dim2 a))).
  pose proof (Py_max_0_nonneg (Np.get3 a 0 y x)) as H00.
  pose proof (Py_max_0_nonneg (Np.get3 a 4 y x)) as H11.
  repeat split; apply Qdiv_le_mono; try assumption; lra.
Qed.

Lemma get_bounds_edges_ordered_witness :
  exists a' x0 y0 x1 y1 x2 y2 x3 y3,
    _get_bounds sample_1x2 0 (-1)
    = Return (a', [[x0; y0]; [x1; y1]; [x2; y2]; [x3; y3]]) /\
    (x0 <= x1 /\ x3 <= x2 /\ y0 <= y3 /\ y1 <= y2)%Q.
Proof.
  apply (get_bounds_edges_ordered sample_1x2 0 (-1));
    [reflexivity | reflexivity | unfold anchor_inside; simpl; lia].
Defined.

(** X3. In exact arithmetic the decoded quadrilateral is a parallelogram
    (opposite corners have the same sum) and its centre is the translation
    column of theta, scaled by 7.75 and placed at the middle of the anchor
    cell: ((theta02 * 7.75 + anchor_x + 0.5) / grid_w,
           (theta12 * 7.75 + anchor_y + 0.5) / grid_h). *)
Theorem get_bounds_parallelogram (a : Np.ndarray3) (anchor_y anchor_x : Z) :
  Np.wf3 a -> Np.dim0 a = 6%nat -> anchor_inside a anchor_y anchor_x ->
  let y := Z.to_nat (anchor_y mod Z.of_nat (Np.dim1 a)) in
  let x := Z.to_nat (anchor_x mod Z.of_nat (Np.dim2 a)) in
  exists a' x0 y0 x1 y1 x2 y2 x3 y3,
    _get_bounds a anchor_y anchor_x
    = Return (a', [[x0; y0]; [x1; y1]; [x2; y2]; [x3; y3]]) /\
    (x0 + x2 == x1 + x3 /\ y0 + y2 == y1 + y3 /\
     (x0 + x2) / 2 == (Np.get3 a 2 y x * 7.75 + inject_Z anchor_x + 0.5)
                      / inject_Z (Z.of_nat (Np.dim2 a)) /\
     (y0 + y2) / 2 == (Np.get3 a 5 y x * 7.75 + inject_Z anchor_y + 0.5)
                      / inject_Z (Z.of_nat (Np.dim1 a)))%Q.
Proof.
  intros Hwf Hdim0 Hin y x.
  destruct (get_bounds_rows a anchor_y anchor_x Hwf Hdim0 Hin)
    as (x0 & y0 & x1 & y1 & x2 & y2 & x3 & y3 & E &
        Hx0 & Hy0 & Hx1 & Hy1 & Hx2 & Hy2 & Hx3 & Hy3).
  exists (clamped a y x), x0, y0, x1, y1, x2, y2, x3, y3. split; [exact E|].
  destruct Hin as [Hy Hx].
  assert (Hgw : ~ (inject_Z (Z.of_nat (Np.dim2 a)) == 0)%Q) by (apply inject_Z_nonzero; lia).
  assert (Hgh : ~ (inject_Z (Z.of_nat (Np.dim1 a)) == 0)%Q) by (apply inject_Z_nonzero; lia).
  rewrite Hx0, Hy0, Hx1, Hy1, Hx2, Hy2, Hx3, Hy3.
  unfold spec_corner, Qx, Qy. cbn -[Np.get3 Qplus Qmult Qdiv inject_Z Py.max].
  fold y x. repeat split; field; assumption.
Qed.

Lemma get_bounds_parallelogram_witness :
  let a := sample_1x2 in
  let y := Z.to_nat (0 mod Z.of_nat (Np.dim1 a)) in
  let x := Z.to_nat (1 mod Z.of_nat (Np.dim2 a)) in
  exists a' x0 y0 x1 y1 x2 y2 x3 y3,
    _get_bounds a 0 1
    = Return (a', [[x0; y0]; [x1; y1]; [x2; y2]; [x3; y3]]) /\
    (x0 + x2 == x1 + x3 /\ y0 + y2 == y1 + y3 /\
     (x0 + x2) / 2 == (Np.get3 a 2 y x * 7.75 + inject_Z 1 + 0.5)
                      / inject_Z (Z.of_nat (Np.dim2 a)) /\
     (y0 + y2) / 2 == (Np.get3 a 5 y x * 7.75 + inject_Z 0 + 0.5)
                      / inject_Z (Z.of_nat (Np.dim1 a)))%Q.
Proof.
  apply (get_bounds_parallelogram sample_1x2 0 1);
    [reflexivity | reflexivity | unfold anchor_inside; simpl; lia].
Defined.

(** X4. When both scale terms at the anchor are non-positive and both shear
    terms are zero, the clamp collapses the quadrilateral: the four
    returned corners are one and the same point. *)
Theorem get_bounds_collapses (a : Np.ndarray3) (anchor_y anchor_x : Z) :
  Np.wf3 a -> Np.dim0 a = 6%nat -> anchor_inside a anchor_y anchor_x ->
  let y := Z.to_nat (anchor_y mod Z.of_nat (Np.dim1 a)) in
  let x := Z.to_nat (anchor_x mod Z.of_nat (Np.dim2 a)) in
  (Np.get3 a 0 y x <= 0)%Q -> (Np.get3 a 4 y x <= 0)%Q ->
  (Np.get3 a 1 y x == 0)%Q -> (Np.get3 a 3 y x == 0)%Q ->
  exists a' x0 y0 x1 y1 x2 y2 x3 y3,
    _get_bounds a anchor_y anchor_x
    = Return (a', [[x0; y0]; [x1; y1]; [x2; y2]; [x3; y3]]) /\
    (x1 == x0 /\ x2 == x0 /\ x3 == x0 /\ y1 == y0 /\ y2 == y0 /\ y3 == y0)%Q.
Proof.
  intros Hwf Hdim0 Hin y x H00 H11 H01 H10.
  destruct (get_bounds_rows a anchor_y anchor_x Hwf Hdim0 Hin)
    as (x0 & y0 & x1 & y1 & x2 & y2 & x3 & y3 & E &
        Hx0 & Hy0 & Hx1 & Hy1 & Hx2 & Hy2 & Hx3 & Hy3).
  exists (clamped a y x), x0, y0, x1, y1, x2, y2, x3, y3. split; [exact E|].
  destruct Hin as [Hy Hx].
  assert (Hgw : ~ (inject_Z (Z.of_nat (Np.dim2 a)) == 0)%Q) by (apply inject_Z_nonzero; lia).
  assert (Hgh : ~ (inject_Z (Z.of_nat (Np.dim1 a)) == 0)%Q) by (apply inject_Z_nonzero; lia).
  rewrite Hx0, Hy0, Hx1, Hy1, Hx2, Hy2, Hx3, Hy3.
  unfold spec_corner, Qx, Qy. cbn -[Np.get3 Qplus Qmult Qdiv inject_Z Py.max].
  fold y x.
  rewrite (Py_max_0_of_nonpos _ H00), (Py_max_0_of_nonpos _ H11), H01, H10.
  repeat split; field; assumption.
Qed.

Lemma get_bounds_collapses_witness :
  exists a' x0 y0 x1 y1 x2 y2 x3 y3,
    _get_bounds collapsed_1x2 0 1
    = Return (a', [[x0; y0]; [x1; y1]; [x2; y2]; [x3; y3]]) /\
    (x1 == x0 /\ x2 == x0 /\ x3 == x0 /\ y1 == y0 /\ y2 == y0 /\ y3 == y0)%Q.
Proof.
  apply (get_bounds_collapses collapsed_1x2 0 1);
    [reflexivity | reflexivity | unfold anchor_inside; simpl; lia
    | vm_compute; discriminate | vm_compute; discriminate
    | reflexivity | reflexivity].
Defined.

(** X5. A negative anchor is accepted and counts from the end of the grid
    for the indexing only.  Decoding at [(anchor_y - grid_h, anchor_x -
    grid_w)] reads and clamps the same cell as decoding at [(anchor_y,
    anchor_x)], and in exact arithmetic returns the same quadrilateral moved
    by -1 in both normalised coordinates, one whole image up and left. *)
Theorem get_bounds_negative_anchor (a : Np.ndarray3) (anchor_y anchor_x : Z) :
  Np.wf3 a -> Np.dim0 a = 6%nat ->
  0 <= anchor_y < Z.of_nat (Np.dim1 a) ->
  0 <= anchor_x < Z.of_nat (Np.dim2 a) ->
  exists a' x0 y0 x1 y1 x2 y2 x3 y3 x0' y0' x1' y1' x2' y2' x3' y3',
    _get_bounds a anchor_y anchor_x
    = Return (a', [[x0; y0]; [x1; y1]; [x2; y2]; [x3; y3]]) /\
    _get_bounds a (anchor_y - Z.of_nat (Np.dim1 a)) (anchor_x - Z.of_nat (Np.dim2 a))
    = Return (a', [[x0'; y0']; [x1'; y1']; [x2'; y2']; [x3'; y3']]) /\
    (x0' == x0 - 1 /\ y0' == y0 - 1 /\ x1' == x1 - 1 /\ y1' == y1 - 1 /\
     x2' == x2 - 1 /\ y2' == y2 - 1 /\ x3' == x3 - 1 /\ y3' == y3 - 1)%Q.
Proof.
  intros Hwf Hdim0 Hy Hx.
  assert (Hin : anchor_inside a anchor_y anchor_x) by (unfold anchor_inside; lia).
  assert (Hin' : anchor_inside a (anchor_y - Z.of_nat (Np.dim1 a))
                   (anchor_x - Z.of_nat (Np.dim2 a))) by (unfold anchor_inside; lia).
  destruct (get_bounds_rows a _ _ Hwf Hdim0 Hin)
    as (x0 & y0 & x1 & y1 & x2 & y2 & x3 & y3 & E &
        Hx0 & Hy0 & Hx1 & Hy1 & Hx2 & Hy2 & Hx3 & Hy3).
  destruct (get_bounds_rows a _ _ Hwf Hdim0 Hin')
    as (x0' & y0' & x1' & y1' & x2' & y2' & x3' & y3' & E' &
        Hx0' & Hy0' & Hx1' & Hy1' & Hx2' & Hy2' & Hx3' & Hy3').
  assert (Emy : (anchor_y - Z.of_nat (Np.dim1 a)) mod Z.of_nat (Np.dim1 a)
                = anchor_y mod Z.of_nat (Np.dim1 a)).
  { replace (anchor_y - Z.of_nat (Np.dim1 a))
      with (anchor_y + (-1) * Z.of_nat (Np.dim1 a)) by lia.
    apply Z.mod_add. lia. }
  assert (Emx : (anchor_x - Z.of_nat (Np.dim2 a)) mod Z.of_nat (Np.dim2 a)
                = anchor_x mod Z.of_nat (Np.dim2 a)).
  { replace (anchor_x - Z.of_nat (Np.dim2 a))
      with (anchor_x + (-1) * Z.of_nat (Np.dim2 a)) by lia.
    apply Z.mod_add. lia. }
  rewrite Emy, Emx in *.
  do 17 eexists. split; [exact E|]. split; [exact E'|].
  assert (Hgw : ~ (inject_Z (Z.of_nat (Np.dim2 a)) == 0)%Q) by (apply inject_Z_nonzero; lia).
  assert (Hgh : ~ (inject_Z (Z.of_nat (Np.dim1 a)) == 0)%Q) by (apply inject_Z_nonzero; lia).
  rewrite Hx0, Hy0, Hx1, Hy1, Hx2, Hy2, Hx3, Hy3.
  rewrite Hx0', Hy0', Hx1', Hy1', Hx2', Hy2', Hx3', Hy3'.
  unfold spec_corner, Qx, Qy, Z.sub. cbn -[Np.get3 Qplus Qmult Qdiv inject_Z Py.max Z.add Z.opp].
  rewrite !inject_Z_plus, !inject_Z_opp.
  repeat split; field; assumption.
Qed.

Lemma get_bounds_negative_anchor_witness :
  let a := sample_1x2 in
  exists a' x0 y0 x1 y1 x2 y2 x3 y3 x0' y0' x1' y1' x2' y2' x3' y3',
    _get_bounds a 0 1
    = Return (a', [[x0; y0]; [x1; y1]; [x2; y2]; [x3; y3]]) /\
    _get_bounds a (0 - Z.of_nat (Np.dim1 a)) (1 - Z.of_nat (Np.dim2 a))
    = Return (a', [[x0'; y0']; [x1'; y1']; [x2'; y2']; [x3'; y3']]) /\
    (x0' == x0 - 1 /\ y0' == y0 - 1 /\ x1' == x1 - 1 /\ y1' == y1 - 1 /\
     x2' == x2 - 1 /\ y2' == y2 - 1 /\ x3' == x3 - 1 /\ y3' == y3 - 1)%Q.
Proof.
  apply (get_bounds_negative_anchor sample_1x2 0 1);
    [reflexivity | reflexivity | simpl; lia | simpl; lia].
Defined.

(** ** Decoding twice *)

Lemma Py_max_idem (v : Q) : Py.max (Py.max v 0) 0 = Py.max v 0.
Proof. unfold Py.max. destruct (QMicromega.Qlt_bool v 0) eqn:E; [reflexivity|]. now rewrite E. Qed.

Lemma set3_same (a : Np.ndarray3) (c y x : nat) :
  Np.wf3 a -> (c < Np.dim0 a)%nat -> (y < Np.dim1 a)%nat -> (x < Np.dim2 a)%nat ->
  Np.set3 a c y x (Np.get3 a c y x) = a.
Proof.
  intros Hwf Hc Hy Hx. pose proof (offset3_lt a Hwf c y x Hc Hy Hx) as Hlt.
  destruct (lookup_lt_is_Some_2 _ _ Hlt) as [v Hv].
  unfold Np.set3, Np.get3, Np.read. rewrite Hv. simpl.
  rewrite (list_insert_id _ _ _ Hv). now destruct a.
Qed.

Lemma clamped_wf (a : Np.ndarray3) (y x : nat) : Np.wf3 a -> Np.wf3 (clamped a y x).
Proof. intros Hwf. unfold clamped. cbv zeta. auto using set3_wf. Qed.

Lemma clamped_idem (a : Np.ndarray3) (y x : nat) :
  Np.wf3 a -> Np.dim0 a = 6%nat -> (y < Np.dim1 a)%nat -> (x < Np.dim2 a)%nat ->
  clamped (clamped a y x) y x = clamped a y x.
Proof.
  intros Hwf Hdim0 Hy Hx.
  pose proof (clamped_get_0 a y x Hwf Hdim0 Hy Hx) as E0.
  pose proof (clamped_get_4 a y x Hwf Hdim0 Hy Hx) as E4.
  pose proof (clamped_wf a y x Hwf) as Hwf'.
  unfold clamped at 1. cbv zeta.
  replace (Py.max (Np.get3 (clamped a y x) 0 y x) 0) with (Np.get3 (clamped a y x) 0 y x)
    by (rewrite E0; symmetry; apply Py_max_idem).
  replace (Py.max (Np.get3 (clamped a y x) 4 y x) 0) with (Np.get3 (clamped a y x) 4 y x)
    by (rewrite E4; symmetry; apply Py_max_idem).
  rewrite (set3_same (clamped a y x) 0 y x) by (auto; simpl; lia).
  apply set3_same; auto. simpl. lia.
Qed.

(** X6. Decoding is repeatable in spite of the write into the grid: a
    second call on the grid the first call left behind returns the same
    quadrilateral and leaves that grid as it is. *)
Theorem get_bounds_twice (a : Np.ndarray3) (anchor_y anchor_x : Z) :
  Np.wf3 a -> Np.dim0 a = 6%nat -> anchor_inside a anchor_y anchor_x ->
  exists a' b,
    _get_bounds a anchor_y anchor_x = Return (a', b) /\
    _get_bounds a' anchor_y anchor_x = Return (a', b).
Proof.
  intros Hwf Hdim0 Hin.
  destruct (get_bounds_at a anchor_y anchor_x Hwf Hdim0 Hin) as (Hylt & Hxlt & E).
  set (y := Z.to_nat (anchor_y mod Z.of_nat (Np.dim1 a))) in *.
  set (x := Z.to_nat (anchor_x mod Z.of_nat (Np.dim2 a))) in *.
  do 2 eexists. split; [exact E|].
  destruct (get_bounds_at (clamped a y x) anchor_y anchor_x) as (_ & _ & E').
  - now apply clamped_wf.
  - exact Hdim0.
  - exact Hin.
  - rewrite E'. cbn [Np.dim1 Np.dim2 clamped Np.set3]. fold y x.
    rewrite (clamped_idem a y x Hwf Hdim0 Hylt Hxlt). reflexivity.
Qed.

Lemma get_bounds_twice_witness :
  exists a' b,
    _get_bounds sample_1x2 0 1 = Return (a', b) /\
    _get_bounds a' 0 1 = Return (a', b).
Proof.
  apply (get_bounds_twice sample_1x2 0 1);
    [reflexivity | reflexivity | unfold anchor_inside; simpl; lia].
Defined.

(** ** More on the fixed-ratio resizer *)

Lemma Py_int_le (z : Z) (q : Q) : (0 <= q)%Q -> (q <= inject_Z z)%Q -> Py.int q <= z.
Proof.
  intros Hq Hz. rewrite (Py_int_nonneg q Hq).
  rewrite <- (Qfloor_Z z). now apply Qfloor_resp_le.
Qed.

Lemma Py_int_mono (p q : Q) : (0 <= p)%Q -> (p <= q)%Q -> Py.int p <= Py.int q.
Proof.
  intros Hp Hpq. rewrite (Py_int_nonneg p Hp).
  rewrite (Py_int_nonneg q) by (eapply Qle_trans; eauto).
  now apply Qfloor_resp_le.
Qed.

Lemma inject_Z_nonneg (z : Z) : 0 <= z -> (0 <= inject_Z z)%Q.
Proof. intros Hz. change 0%Q with (inject_Z 0). now rewrite <- Zle_Qle. Qed.

(** X7. Transposing the image transposes the target size: the resizer
    treats height and width alike. *)
Theorem reg_size_transposed (h w : Z) :
  reg_size w h
  = match reg_size h w with
    | Return (reg_w, reg_h) => Return (reg_h, reg_w)
    | Raise cls => Raise cls
    end.
Proof.
  unfold reg_size, factor, bound_dim, side, wh_ratio.
  rewrite (Z.max_comm w h), (Z.min_comm w h).
  destruct (Py.truediv (Z.max h w) (Z.min h w)) as [r|cls]; cbn [bind]; [|reflexivity].
  destruct (Py.truediv _ (Z.min h w)) as [f|cls]; cbn [bind]; reflexivity.
Qed.

Section ResizerOrder.
Variables h w : Z.
Hypothesis Hh : 1 <= h.
Hypothesis Hw : 1 <= w.

(** The factor is [bound_dim / min(h, w)], not negative. *)
Lemma reg_size_form :
  exists b, bound_dim h w = Return b /\ 288 <= b <= 608 /\
    reg_size h w
    = Return (Py.int (inject_Z w * (inject_Z b / inject_Z (Z.min h w)))%Q,
              Py.int (inject_Z h * (inject_Z b / inject_Z (Z.min h w)))%Q) /\
    (0 <= inject_Z b / inject_Z (Z.min h w))%Q.
Proof using Hh Hw.
  destruct (bound_dim_range h w Hh Hw) as (b & Hb & Hb288).
  exists b. split; [exact Hb|]. split; [exact Hb288|].
  split.
  - unfold reg_size, factor. rewrite Hb. cbn [bind]. unfold Py.truediv.
    destruct (Z.eqb_spec (Z.min h w) 0) as [E|_]; [lia|reflexivity].
  - apply Qle_shift_div_l.
    + change 0%Q with (inject_Z 0). rewrite <- Zlt_Qlt. lia.
    + rewrite Qmult_0_l. apply inject_Z_nonneg. lia.
Qed.

End ResizerOrder.

(** X8. The resizer keeps the orientation: for an image with [h, w >= 1]
    that is at least as tall as wide the target is at least as tall as
    wide, and the other way round. *)
Theorem reg_size_keeps_orientation (h w : Z) :
  1 <= h -> 1 <= w ->
  exists reg_w reg_h,
    reg_size h w = Return (reg_w, reg_h) /\
    (w <= h -> reg_w <= reg_h) /\ (h <= w -> reg_h <= reg_w).
Proof.
  intros Hh Hw.
  destruct (reg_size_form h w Hh Hw) as (b & _ & _ & E & Hf).
  do 2 eexists. split; [exact E|].
  split; intros Hle; apply Py_int_mono.
  - apply Qmult_le_0_compat; [apply inject_Z_nonneg; lia|exact Hf].
  - apply Qmult_le_compat_r; [|exact Hf]. rewrite <- Zle_Qle. exact Hle.
  - apply Qmult_le_0_compat; [apply inject_Z_nonneg; lia|exact Hf].
  - apply Qmult_le_compat_r; [|exact Hf]. rewrite <- Zle_Qle. exact Hle.
Qed.

Lemma reg_size_keeps_orientation_witness :
  exists reg_w reg_h,
    reg_size 480 640 = Return (reg_w, reg_h) /\
    (640 <= 480 -> reg_w <= reg_h) /\ (480 <= 640 -> reg_h <= reg_w).
Proof. apply (reg_size_keeps_orientation 480 640); lia. Defined.

(** X9. The bound is the cap 608 for every image whose longer side is at
    least 19/9 of the shorter one. *)
Theorem bound_dim_capped (h w : Z) :
  1 <= h -> 1 <= w ->
  19 * Z.min h w <= 9 * Z.max h w ->
  bound_dim h w = Return 608.
Proof.
  intros Hh Hw Hratio.
  unfold bound_dim, side. rewrite (wh_ratio_returns h w Hh Hw). cbn [bind]. f_equal.
  assert (Hs : 608 <= Py.int (inject_Z (Z.max h w) / inject_Z (Z.min h w) * 288)%Q).
  { apply Py_int_ge; [lia|].
    assert (E : (inject_Z (Z.max h w) / inject_Z (Z.min h w) * 288
                 == inject_Z (288 * Z.max h w) / inject_Z (Z.min h w))%Q).
    { rewrite inject_Z_mult. field. apply inject_Z_nonzero. lia. }
    rewrite E. apply Qle_shift_div_l.
    - change 0%Q with (inject_Z 0). rewrite <- Zlt_Qlt. lia.
    - rewrite <- inject_Z_mult, <- Zle_Qle. lia. }
  unfold Py.mod_.
  pose proof (Z.mod_pos_bound
                (Py.int (inject_Z (Z.max h w) / inject_Z (Z.min h w) * 288)%Q) 16).
  lia.
Qed.

Lemma bound_dim_capped_witness : bound_dim 100 300 = Return 608.
Proof. apply (bound_dim_capped 100 300); lia. Defined.

(** X11. For every square image the bound is 288, the least value it takes. *)
Theorem bound_dim_square (n : Z) :
  1 <= n -> bound_dim n n = Return 288.
Proof.
  intros Hn.
  unfold bound_dim, side. rewrite (wh_ratio_returns n n Hn Hn). cbn [bind].
  rewrite Z.max_id, Z.min_id. f_equal.
  assert (E : (inject_Z n / inject_Z n * 288 == inject_Z 288)%Q).
  { field. apply inject_Z_nonzero. lia. }
  assert (Hs : Py.int (inject_Z n / inject_Z n * 288)%Q = 288).
  { apply Z.le_antisymm.
    - apply Py_int_le; [|rewrite E; apply Qle_refl].
      rewrite E. now apply inject_Z_nonneg.
    - apply Py_int_ge; [lia|]. rewrite E. apply Qle_refl. }
  rewrite Hs. reflexivity.
Qed.

Lemma bound_dim_square_witness : bound_dim 519 519 = Return 288.
Proof. apply (bound_dim_square 519); lia. Defined.

(** X10. The shorter side of the target size never exceeds 608. *)
Theorem reg_size_shorter_side_bounded (h w : Z) :
  1 <= h -> 1 <= w ->
  exists reg_w reg_h,
    reg_size h w = Return (reg_w, reg_h) /\ Z.min reg_w reg_h <= 608.
Proof.
  intros Hh Hw.
  destruct (reg_size_form h w Hh Hw) as (b & _ & Hb & E & Hf).
  do 2 eexists. split; [exact E|].
  assert (Hm : ~ (inject_Z (Z.min h w) == 0)%Q) by (apply inject_Z_nonzero; lia).
  assert (Hshort : Py.int (inject_Z (Z.min h w) * (inject_Z b / inject_Z (Z.min h w)))%Q <= 608).
  { assert (Eq : (inject_Z (Z.min h w) * (inject_Z b / inject_Z (Z.min h w))
                  == inject_Z b)%Q) by (field; exact Hm).
    apply Z.le_trans with b; [|lia].
    apply Py_int_le; rewrite Eq; [apply inject_Z_nonneg; lia|apply Qle_refl]. }
  destruct (Z.le_ge_cases h w) as [Hle|Hle].
  - rewrite (Z.min_l h w Hle) in Hshort |- *. lia.
  - rewrite (Z.min_r h w Hle) in Hshort |- *. lia.
Qed.

Lemma reg_size_shorter_side_bounded_witness :
  exists reg_w reg_h,
    reg_size 1080 1920 = Return (reg_w, reg_h) /\ Z.min reg_w reg_h <= 608.
Proof. apply (reg_size_shorter_side_bounded 1080 1920); lia. Defined.

(** The exact model and the binary64 run can differ by one in the target
    size: for a 519 x 519 image the doubles give 287 x 287. *)
Example binary64_differs_519 :
  Binary64.reg_size64 519 519 = Return (287, 287) /\ reg_size 519 519 = Return (288, 288).
Proof. split; vm_compute; reflexivity. Qed.

(** ** Truncation, and the shape of what the decoder returns *)

Lemma Py_int_opp (q : Q) : Py.int (- q) = - Py.int q.
Proof. destruct q as [n d]. unfold Py.int. simpl. apply Z.quot_opp_l. lia. Qed.

(** [int] depends on the number only, not on the fraction that writes it. *)
Lemma Py_int_comp (p q : Q) : (p == q)%Q -> Py.int p = Py.int q.
Proof.
  intros E. destruct (Qlt_le_dec p 0) as [Hneg|Hpos].
  - assert (Hp : (0 <= - p)%Q) by lra.
    assert (Hq : (0 <= - q)%Q) by lra.
    assert (Ep : Py.int p = - Py.int (- p)) by (rewrite Py_int_opp; lia).
    assert (Eq : Py.int q = - Py.int (- q)) by (rewrite Py_int_opp; lia).
    rewrite Ep, Eq. f_equal.
    rewrite (Py_int_nonneg _ Hp), (Py_int_nonneg _ Hq). now rewrite E.
  - assert (Hq : (0 <= q)%Q) by lra.
    rewrite (Py_int_nonneg _ Hpos), (Py_int_nonneg _ Hq). now rewrite E.
Qed.

Lemma amax_of_anchor (probs : Np.ndarray2) (anchor : Z * Z) :
  _get_max_anchor probs = Return anchor -> exists m, Np.amax probs = Return m.
Proof.
  unfold _get_max_anchor, Np.argmax, Np.amax.
  destruct (Np.data2 probs) as [|v l]; cbn [bind]; [discriminate|]. eauto.
Qed.

(** The array returned by the decoder has 4 rows of 2 numbers. *)
Lemma get_bounds_shape (a a' : Np.ndarray3) (anchor_y anchor_x : Z) (b : Np.matrix) :
  _get_bounds a anchor_y anchor_x = Return (a', b) ->
  exists x0 y0 x1 y1 x2 y2 x3 y3, b = [[x0; y0]; [x1; y1]; [x2; y2]; [x3; y3]].
Proof.
  unfold _get_bounds.
  destruct (Np.anchor_view a anchor_y anchor_x) as [v|cls]; cbn [bind]; [|discriminate].
  cbv zeta. intros [= _ <-].
  cbn -[Np.vget Np.vset Qplus Qmult Qdiv inject_Z Py.max _scaling_const].
  do 8 eexists. reflexivity.
Qed.

Lemma nat_index_id (i n : nat) : (i < n)%nat -> Z.to_nat (Z.of_nat i mod Z.of_nat n) = i.
Proof. intros Hi. rewrite Z.mod_small by lia. apply Nat2Z.id. Qed.

(** ** [_inference]: what the squeeze keeps *)

Lemma squeeze_grid_size (gh gw : nat) :
  Nd.size (filter (fun d => d <> 1%nat) [gh; gw]) = (gh * gw)%nat.
Proof.
  rewrite !filter_cons, filter_nil.
  destruct (decide (gh <> 1%nat)) as [Hh|Hh]; destruct (decide (gw <> 1%nat)) as [Hw|Hw];
    cbn [Nd.size foldr]; try (apply dec_stable in Hh); try (apply dec_stable in Hw);
    subst; lia.
Qed.

(** The result of [_inference] on forward outputs of shapes
    [(1, 2, grid_h, grid_w)] and [(1, 6, grid_h, grid_w)], for any grid. *)
Lemma inference_general {Tensor : Type} {Net : Forward Tensor} (image : Tensor)
    (P A : Nd.ndarray) (gh gw : nat) :
  forward image = Return (P, A) ->
  Nd.shape P = [1; 2; gh; gw]%nat -> Nd.shape A = [1; 6; gh; gw]%nat ->
  Inference._inference image
  = Return ({| Nd.shape := filter (fun d => d <> 1%nat) [gh; gw];
               Nd.data := take (gh * gw) (Nd.data P) |},
            {| Nd.shape := 6%nat :: filter (fun d => d <> 1%nat) [gh; gw];
               Nd.data := Nd.data A |}).
Proof.
  intros Hf HP HA. unfold Inference._inference. rewrite Hf. cbn [bind].
  unfold Nd.squeeze, Nd.first. rewrite HP, HA.
  rewrite !(filter_cons _ 1%nat), (filter_cons _ 2%nat), (filter_cons _ 6%nat).
  destruct (decide (1%nat <> 1%nat)) as [N|_]; [congruence|].
  destruct (decide (2%nat <> 1%nat)) as [_|N]; [|exfalso; apply N; discriminate].
  destruct (decide (6%nat <> 1%nat)) as [_|N]; [|exfalso; apply N; discriminate].
  cbn [Nd.shape Nd.data Nat.eqb bind]. now rewrite squeeze_grid_size.
Qed.

(** X19. When the network's grid has at least 2 rows and 2 columns,
    [_inference] returns a probability array of shape (grid_h, grid_w) that
    is channel 0 of the batch's first element, entry by entry, and an affine
    array of shape (6, grid_h, grid_w) over the network's buffer; both
    satisfy the shape invariant. *)
Theorem inference_regular_grid {Tensor : Type} {Net : Forward Tensor} (image : Tensor)
    (P A : Nd.ndarray) (gh gw : nat) :
  forward image = Return (P, A) ->
  Nd.wf P -> Nd.wf A ->
  Nd.shape P = [1; 2; gh; gw]%nat -> Nd.shape A = [1; 6; gh; gw]%nat ->
  (2 <= gh)%nat -> (2 <= gw)%nat ->
  exists probs affines,
    Inference._inference image = Return (probs, affines) /\
    Nd.shape probs = [gh; gw] /\ Nd.wf probs /\
    Nd.shape affines = [6%nat; gh; gw] /\ Nd.wf affines /\
    Nd.data affines = Nd.data A /\
    forall y x, (y < gh)%nat -> (x < gw)%nat ->
      is_Some (Nd.get2 probs y x) /\ Nd.get2 probs y x = Nd.get4 P 0 0 y x.
Proof.
  intros Hf HwfP HwfA HP HA Hgh Hgw.
  rewrite (inference_general image P A gh gw Hf HP HA).
  assert (Efilter : filter (fun d => d <> 1%nat) [gh; gw] = [gh; gw]).
  { rewrite !filter_cons, filter_nil.
    destruct (decide (gh <> 1%nat)); [|lia]. destruct (decide (gw <> 1%nat)); [|lia].
    reflexivity. }
  rewrite Efilter. do 2 eexists. split; [reflexivity|].
  unfold Nd.wf in *. rewrite HP in HwfP. rewrite HA in HwfA. cbn [Nd.size foldr] in *.
  cbn [Nd.shape Nd.data Nd.size foldr].
  split; [reflexivity|]. split; [rewrite length_take; lia|].
  split; [reflexivity|]. split; [lia|]. split; [reflexivity|].
  intros y x Hy Hx. unfold Nd.get2, Nd.get4. cbn [Nd.shape Nd.data]. rewrite HP.
  assert (Hoff : (y * gw + x < gh * gw)%nat).
  { apply Nat.lt_le_trans with (S y * gw)%nat; [simpl; lia|].
    apply Nat.mul_le_mono_r. lia. }
  replace (((0 * 2 + 0) * gh + y) * gw + x)%nat with (y * gw + x)%nat by lia.
  rewrite lookup_take_lt by exact Hoff.
  split; [|reflexivity]. apply lookup_lt_is_Some_2. lia.
Qed.

Lemma inference_regular_grid_witness :
  exists probs affines,
    Inference._inference (Net := fixed_forward forward_2x3) tt = Return (probs, affines) /\
    Nd.shape probs = [2; 3]%nat /\ Nd.wf probs /\
    Nd.shape affines = [6; 2; 3]%nat /\ Nd.wf affines /\
    Nd.data affines = Nd.data (snd forward_2x3) /\
    forall y x, (y < 2)%nat -> (x < 3)%nat ->
      is_Some (Nd.get2 probs y x) /\ Nd.get2 probs y x = Nd.get4 (fst forward_2x3) 0 0 y x.
Proof.
  apply (inference_regular_grid (Net := fixed_forward forward_2x3) tt
           (fst forward_2x3) (snd forward_2x3) 2 3);
    [reflexivity | reflexivity | reflexivity | reflexivity | reflexivity | lia | lia].
Defined.

(** X20. When the network's grid has a single row or a single column, the
    squeeze removes that axis together with the batch axis: [_inference]
    still returns, but the probability array has fewer than 2 axes and the
    affine array fewer than 3, so they are not the (grid_h, grid_w) and
    (6, grid_h, grid_w) arrays the rest of the predictor indexes. *)
Theorem inference_singleton_grid {Tensor : Type} {Net : Forward Tensor} (image : Tensor)
    (P A : Nd.ndarray) (gh gw : nat) :
  forward image = Return (P, A) ->
  Nd.shape P = [1; 2; gh; gw]%nat -> Nd.shape A = [1; 6; gh; gw]%nat ->
  gh = 1%nat \/ gw = 1%nat ->
  exists probs affines,
    Inference._inference image = Return (probs, affines) /\
    (length (Nd.shape probs) < 2)%nat /\
    (length (Nd.shape affines) < 3)%nat /\
    Nd.size (Nd.shape probs) = (gh * gw)%nat.
Proof.
  intros Hf HP HA Hone.
  rewrite (inference_general image P A gh gw Hf HP HA).
  do 2 eexists. split; [reflexivity|]. cbn [Nd.shape].
  rewrite squeeze_grid_size. split; [|split; [|reflexivity]].
  - rewrite !filter_cons, filter_nil.
    destruct (decide (gh <> 1%nat)); destruct (decide (gw <> 1%nat)); simpl; lia.
  - rewrite !filter_cons, filter_nil.
    destruct (decide (gh <> 1%nat)); destruct (decide (gw <> 1%nat)); simpl; lia.
Qed.

Lemma inference_singleton_grid_witness :
  let P := {| Nd.shape := [1; 2; 1; 3]%nat; Nd.data := [0.1; 0.7; 0.2; 0.9; 0.3; 0.8]%Q |} in
  let A := {| Nd.shape := [1; 6; 1; 3]%nat; Nd.data := replicate 18 0%Q |} in
  exists probs affines,
    Inference._inference (Net := fixed_forward (P, A)) tt = Return (probs, affines) /\
    (length (Nd.shape probs) < 2)%nat /\
    (length (Nd.shape affines) < 3)%nat /\
    Nd.size (Nd.shape probs) = (1 * 3)%nat.
Proof.
  intros P A.
  apply (inference_singleton_grid (Net := fixed_forward (P, A)) tt P A 1 3);
    [reflexivity | reflexivity | reflexivity | left; reflexivity].
Defined.

(** ** The decoder reads one cell *)

(** X21. The decoded quadrilateral depends on the grid through its two
    spatial dimensions and the six parameters of the addressed cell only:
    two grids that agree on those decode to the same quadrilateral, whatever
    their other cells hold. *)
Theorem get_bounds_local (a1 a2 : Np.ndarray3) (anchor_y anchor_x : Z) :
  Np.wf3 a1 -> Np.wf3 a2 -> Np.dim0 a1 = 6%nat -> Np.dim0 a2 = 6%nat ->
  Np.dim1 a1 = Np.dim1 a2 -> Np.dim2 a1 = Np.dim2 a2 ->
  anchor_inside a1 anchor_y anchor_x ->
  let y := Z.to_nat (anchor_y mod Z.of_nat (Np.dim1 a1)) in
  let x := Z.to_nat (anchor_x mod Z.of_nat (Np.dim2 a1)) in
  (forall c, (c < 6)%nat -> Np.get3 a1 c y x = Np.get3 a2 c y x) ->
  exists a1' a2' b,
    _get_bounds a1 anchor_y anchor_x = Return (a1', b) /\
    _get_bounds a2 anchor_y anchor_x = Return (a2', b).
Proof.
  intros Hwf1 Hwf2 Hd1 Hd2 E1 E2 Hin y x Hsame.
  assert (Hin2 : anchor_inside a2 anchor_y anchor_x)
    by (unfold anchor_inside in *; rewrite <- E1, <- E2; exact Hin).
  destruct (get_bounds_at a1 anchor_y anchor_x Hwf1 Hd1 Hin) as (Hylt & Hxlt & R1).
  destruct (get_bounds_at a2 anchor_y anchor_x Hwf2 Hd2 Hin2) as (Hylt2 & Hxlt2 & R2).
  rewrite <- E1, <- E2 in R2. fold y x in R1, R2, Hylt, Hxlt.
  rewrite R1, R2. do 3 eexists. split; [reflexivity|]. do 4 f_equal.
  unfold Np.vread, Np.vget. cbn [map seq Np.vy Np.vx Nat.mul Nat.add].
  assert (Hy2 : (y < Np.dim1 a2)%nat) by (rewrite <- E1; exact Hylt).
  assert (Hx2 : (x < Np.dim2 a2)%nat) by (rewrite <- E2; exact Hxlt).
  rewrite (clamped_get_0 a1 y x Hwf1 Hd1 Hylt Hxlt), (clamped_get_0 a2 y x Hwf2 Hd2 Hy2 Hx2).
  rewrite (clamped_get_4 a1 y x Hwf1 Hd1 Hylt Hxlt), (clamped_get_4 a2 y x Hwf2 Hd2 Hy2 Hx2).
  rewrite !(clamped_get_other a1 y x Hwf1 Hylt Hxlt) by (auto; congruence).
  rewrite !(clamped_get_other a2 y x Hwf2 Hy2 Hx2) by (auto; congruence).
  rewrite !Hsame by lia. reflexivity.
Qed.

Lemma get_bounds_local_witness :
  exists a1' a2' b,
    _get_bounds sample_1x2 0 1 = Return (a1', b) /\
    _get_bounds (Np.set3 sample_1x2 2 0 0 9) 0 1 = Return (a2', b).
Proof.
  apply (get_bounds_local sample_1x2 (Np.set3 sample_1x2 2 0 0 9) 0 1);
    [reflexivity | reflexivity | reflexivity | reflexivity | reflexivity | reflexivity
    | unfold anchor_inside; simpl; lia
    | intros c Hc; do 6 (destruct c as [|c]; [reflexivity|]); lia].
Defined.

(** ** [predict] through [_inference] *)

Lemma unravel_length (s : list nat) (i : nat) : length (NdOps.unravel i s) = length s.
Proof. revert i. induction s as [|d s IH]; intros i; simpl; [reflexivity|]. now rewrite IH. Qed.

Lemma unpack_anchor_bad (t : list Z) : length t <> 2%nat -> unpack_anchor t = Raise "ValueError".
Proof. destruct t as [|a [|b [|c t]]]; simpl; intros H; try reflexivity. lia. Qed.

(** On an array of rank 2 the anchor selector is the one on grids. *)
Lemma pipeline_anchor_rank2 (p : Nd.ndarray) (gh gw : nat) :
  Nd.shape p = [gh; gw] ->
  Predictor._get_max_anchor p
  = bind (_get_max_anchor (grid2 p gh gw)) (fun a => Return [fst a; snd a]).
Proof.
  intros Hs. unfold Predictor._get_max_anchor, _get_max_anchor, NdOps.argmax, Np.argmax.
  cbn [grid2 Np.data2]. destruct (Nd.data p) as [|v l]; cbn [bind]; [reflexivity|].
  unfold NdOps.unravel_index, Np.unravel_index. rewrite Hs.
  cbn [Nd.size foldr NdOps.unravel grid2 Np.rows Np.cols].
  rewrite !Nat.mul_1_r, Nat.div_1_r.
  destruct (_ <? gh * gw)%nat; reflexivity.
Qed.

Lemma grid2_wf (p : Nd.ndarray) (gh gw : nat) :
  Nd.wf p -> Nd.shape p = [gh; gw] -> Np.wf2 (grid2 p gh gw).
Proof.
  unfold Nd.wf, Np.wf2. intros Hwf Hs. rewrite Hs in Hwf. cbn in *. lia.
Qed.

Lemma grid3_wf (a : Nd.ndarray) (d0 d1 d2 : nat) :
  Nd.wf a -> Nd.shape a = [d0; d1; d2] -> Np.wf3 (grid3 a d0 d1 d2).
Proof.
  unfold Nd.wf, Np.wf3. intros Hwf Hs. rewrite Hs in Hwf. cbn in *.
  rewrite Nat.mul_1_r in Hwf. exact Hwf.
Qed.

Section PipelineFacts.
Context {Image : Type} {PIL : PILImage Image} {Net : Forward Image}.
Variable int32_overflow : Z -> Z.
Variables (img resized : Image) (probs affines : Nd.ndarray).
Hypothesis Hresize : _resize_to_fixed_ratio img = Return resized.
Hypothesis Hinfer : Inference._inference resized = Return (probs, affines).

(** With a probability array of rank 2 and an affine array of rank 3,
    [predict] is the two reductions and the decoder on the grids. *)
Lemma pipeline_on_grids (gh gw d0 d1 d2 : nat) :
  Nd.shape probs = [gh; gw] -> Nd.shape affines = [d0; d1; d2] ->
  Predictor.predict int32_overflow img
  = bind (Np.amax (grid2 probs gh gw)) (fun m =>
    bind (_get_max_anchor (grid2 probs gh gw)) (fun anchor =>
    bind (_get_bounds (grid3 affines d0 d1 d2) (fst anchor) (snd anchor)) (fun r =>
    Return {| image := img;
              bounds := map (fun row =>
                          [pixel int32_overflow (Np.read row 0) (width img);
                           pixel int32_overflow (Np.read row 1) (height img)]) (snd r);
              confidence := m |}))).
Proof using Hresize Hinfer.
  intros Hp Ha. unfold Predictor.predict. rewrite Hresize. cbn [bind].
  rewrite Hinfer. cbn [bind].
  change (NdOps.amax probs) with (Np.amax (grid2 probs gh gw)).
  destruct (Np.amax (grid2 probs gh gw)) as [m|]; cbn [bind]; [|reflexivity].
  rewrite (pipeline_anchor_rank2 probs gh gw Hp).
  destruct (_get_max_anchor (grid2 probs gh gw)) as [[ay ax]|]; cbn [bind fst snd];
    [|reflexivity].
  cbn [unpack_anchor bind]. unfold Predictor._get_bounds. rewrite Ha.
  destruct (_get_bounds (grid3 affines d0 d1 d2) ay ax) as [[a' b]|] eqn:E; cbn [bind snd];
    [|reflexivity].
  destruct (get_bounds_shape _ _ _ _ _ E) as (x0 & y0 & x1 & y1 & x2 & y2 & x3 & y3 & ->).
  reflexivity.
Qed.

(** With a probability array of another rank than 2, [predict] raises
    [ValueError]: from [np.amax] on an empty array, or from unpacking the
    anchor into two names. *)
Lemma pipeline_bad_rank :
  length (Nd.shape probs) <> 2%nat ->
  Predictor.predict int32_overflow img = Raise "ValueError".
Proof using Hresize Hinfer.
  intros Hrank. unfold Predictor.predict. rewrite Hresize. cbn [bind].
  rewrite Hinfer. cbn [bind].
  unfold NdOps.amax, Predictor._get_max_anchor, NdOps.argmax.
  destruct (Nd.data probs) as [|v l]; cbn [bind]; [reflexivity|].
  unfold NdOps.unravel_index.
  destruct (_ <? _)%nat; cbn [bind]; [|reflexivity].
  rewrite unpack_anchor_bad by (now rewrite unravel_length). reflexivity.
Qed.

End PipelineFacts.

(** [astype(np.int32)] depends on the number only, not on the fraction that
    writes it. *)
Lemma astype_int32_comp (int32_overflow : Z -> Z) (p q : Q) :
  (p == q)%Q -> Predictor.astype_int32 int32_overflow p = Predictor.astype_int32 int32_overflow q.
Proof. intros E. unfold Predictor.astype_int32. now rewrite (Py_int_comp p q E). Qed.

Lemma grid2_of_grid2 (g : Np.ndarray2) : grid2 (of_grid2 g) (Np.rows g) (Np.cols g) = g.
Proof. destruct g. reflexivity. Qed.

(** C2. On a non-empty probability grid the anchor selector returns the
    indices of a cell holding the maximum; no cell with that value comes
    before it in row-major order; on a 1 x 1 grid it returns (0, 0); and
    when [_inference] returns that grid and the decoding at that anchor goes
    through, [predict] returns a prediction whose confidence is the value of
    that cell. *)
Theorem get_max_anchor_first_maximum (probs : Np.ndarray2) :
  Np.wf2 probs -> (0 < Np.rows probs)%nat -> (0 < Np.cols probs)%nat ->
  exists ay ax : nat,
    _get_max_anchor probs = Return (Z.of_nat ay, Z.of_nat ax) /\
    (ay < Np.rows probs)%nat /\ (ax < Np.cols probs)%nat /\
    (forall y x, (y < Np.rows probs)%nat -> (x < Np.cols probs)%nat ->
                 (Np.get2 probs y x <= Np.get2 probs ay ax)%Q) /\
    (forall y x, (y < Np.rows probs)%nat -> (x < Np.cols probs)%nat ->
                 (Np.get2 probs y x == Np.get2 probs ay ax)%Q ->
                 (ay < y \/ (ay = y /\ ax <= x))%nat) /\
    (Np.rows probs = 1%nat -> Np.cols probs = 1%nat -> ay = 0%nat /\ ax = 0%nat) /\
    forall (Image : Type) (PIL : PILImage Image) (Net : Forward Image)
           (int32_overflow : Z -> Z) (img resized : Image)
           (affines : Nd.ndarray) (ah aw : nat),
      _resize_to_fixed_ratio img = Return resized ->
      Inference._inference resized = Return (of_grid2 probs, affines) ->
      Nd.shape affines = [6%nat; ah; aw] ->
      (ay < ah)%nat -> (ax < aw)%nat ->
      exists pred, Predictor.predict int32_overflow img = Return pred /\
                   confidence pred = Np.get2 probs ay ax.
Proof.
  intros Hwf Hrows Hcols.
  destruct (get_max_anchor_spec probs Hwf Hrows Hcols)
    as (ay & ax & Ea & Hay & Hax & Em & Hmax & Hfirst).
  exists ay, ax. repeat split; auto; try lia.
  intros Image PIL Net int32_overflow img resized affines ah aw Hresize Hinfer Ha Hy Hx.
  rewrite (pipeline_on_grids int32_overflow img resized (of_grid2 probs) affines
             Hresize Hinfer (Np.rows probs) (Np.cols probs) 6 ah aw eq_refl Ha).
  rewrite grid2_of_grid2, Em, Ea. cbn [bind fst snd].
  destruct (get_bounds_returns (grid3 affines 6 ah aw) ay ax eq_refl Hy Hx) as [r Hr].
  rewrite Hr. cbn [bind]. eexists. split; reflexivity.
Qed.

Lemma get_max_anchor_first_maximum_witness :
  let probs := sample_probs in
  exists ay ax : nat,
    _get_max_anchor probs = Return (Z.of_nat ay, Z.of_nat ax) /\
    (ay < Np.rows probs)%nat /\ (ax < Np.cols probs)%nat /\
    (forall y x, (y < Np.rows probs)%nat -> (x < Np.cols probs)%nat ->
                 (Np.get2 probs y x <= Np.get2 probs ay ax)%Q) /\
    (forall y x, (y < Np.rows probs)%nat -> (x < Np.cols probs)%nat ->
                 (Np.get2 probs y x == Np.get2 probs ay ax)%Q ->
                 (ay < y \/ (ay = y /\ ax <= x))%nat) /\
    (Np.rows probs = 1%nat -> Np.cols probs = 1%nat -> ay = 0%nat /\ ax = 0%nat) /\
    forall (Image : Type) (PIL : PILImage Image) (Net : Forward Image)
           (int32_overflow : Z -> Z) (img resized : Image)
           (affines : Nd.ndarray) (ah aw : nat),
      _resize_to_fixed_ratio img = Return resized ->
      Inference._inference resized = Return (of_grid2 probs, affines) ->
      Nd.shape affines = [6%nat; ah; aw] ->
      (ay < ah)%nat -> (ax < aw)%nat ->
      exists pred, Predictor.predict int32_overflow img = Return pred /\
                   confidence pred = Np.get2 probs ay ax.
Proof.
  apply (get_max_anchor_first_maximum sample_probs); [reflexivity | simpl; lia | simpl; lia].
Defined.

(** The 2 x 3 grid with a tie, as [_inference] returns it, inside [predict]:
    the confidence is the 5 of the first of the two cells. *)
Example predict_confidence_on_tie :
  let Net := fixed_forward_on
               ({| Nd.shape := [1; 2; 2; 3]%nat;
                   Nd.data := (Np.data2 sample_probs ++ replicate 6 0%Q)%list |},
                {| Nd.shape := [1; 6; 2; 3]%nat; Nd.data := Nd.data (snd forward_2x3) |}) in
  Inference._inference {| bm_height := 576; bm_width := 1152 |}
  = Return (of_grid2 sample_probs,
            {| Nd.shape := [6; 2; 3]%nat; Nd.data := Nd.data (snd forward_2x3) |}) /\
  exists pred, Predictor.predict int32_min image_100x50 = Return pred /\
               confidence pred = Np.get2 sample_probs 0 1.
Proof.
  intros Net. split; [reflexivity|].
  eexists. split; [vm_compute; reflexivity|reflexivity].
Qed.

(** C6, as the code has it.  The grids are the arrays [_inference] returns,
    of shapes (grid_h, grid_w) and (6, grid_h', grid_w').  When the spatial
    shapes disagree nothing compares them: the anchor selected on the
    probability grid indexes the affine grid.  Outside the affine grid the
    indexing raises [IndexError].  Inside it [predict] returns: the corners
    are the decoder's at that anchor of the affine grid, normalised by the
    affine grid's own height and width (in exact arithmetic), and each
    becomes a pixel of the image; the confidence is the maximum of the
    probability grid. *)
Theorem predict_shape_disagreement {Image : Type} {PIL : PILImage Image}
    {Net : Forward Image} (int32_overflow : Z -> Z) (img resized : Image)
    (probs affines : Nd.ndarray) (gh gw ah aw : nat) :
  _resize_to_fixed_ratio img = Return resized ->
  Inference._inference resized = Return (probs, affines) ->
  Nd.shape probs = [gh; gw] -> Nd.shape affines = [6%nat; ah; aw] ->
  Nd.wf probs -> Nd.wf affines ->
  (0 < gh)%nat -> (0 < gw)%nat ->
  (gh, gw) <> (ah, aw) ->
  exists (ay ax : nat) (m : Q),
    Predictor._get_max_anchor probs = Return [Z.of_nat ay; Z.of_nat ax] /\
    NdOps.amax probs = Return m /\
    (((ay < ah)%nat /\ (ax < aw)%nat /\
      let theta i j := Np.get3 (grid3 affines 6 ah aw) (3 * i + j) ay ax in
      let corner := spec_corner theta (Z.of_nat ay) (Z.of_nat ax) ah aw in
      exists x0 y0 x1 y1 x2 y2 x3 y3,
        ((x0 == fst (corner 0%nat)) /\ (y0 == snd (corner 0%nat)) /\
         (x1 == fst (corner 1%nat)) /\ (y1 == snd (corner 1%nat)) /\
         (x2 == fst (corner 2%nat)) /\ (y2 == snd (corner 2%nat)) /\
         (x3 == fst (corner 3%nat)) /\ (y3 == snd (corner 3%nat)))%Q /\
        Predictor.predict int32_overflow img
        = Return {| image := img;
                    bounds :=
                      [[pixel int32_overflow x0 (width img);
                        pixel int32_overflow y0 (height img)];
                       [pixel int32_overflow x1 (width img);
                        pixel int32_overflow y1 (height img)];
                       [pixel int32_overflow x2 (width img);
                        pixel int32_overflow y2 (height img)];
                       [pixel int32_overflow x3 (width img);
                        pixel int32_overflow y3 (height img)]];
                    confidence := m |})
     \/
     (~ ((ay < ah)%nat /\ (ax < aw)%nat) /\
      Predictor.predict int32_overflow img = Raise "IndexError")).
Proof.
  intros Hresize Hinfer Hp Ha Hwfp Hwfa Hgh Hgw _.
  pose proof (grid2_wf probs gh gw Hwfp Hp) as Hwf2.
  pose proof (grid3_wf affines 6 ah aw Hwfa Ha) as Hwf3.
  destruct (get_max_anchor_spec (grid2 probs gh gw) Hwf2 Hgh Hgw)
    as (ay & ax & Ea & Hay & Hax & Em & _).
  exists ay, ax, (Np.get2 (grid2 probs gh gw) ay ax).
  split; [rewrite (pipeline_anchor_rank2 probs gh gw Hp), Ea; reflexivity|].
  split; [exact Em|].
  rewrite (pipeline_on_grids int32_overflow img resized probs affines Hresize Hinfer
             gh gw 6 ah aw Hp Ha).
  rewrite Em, Ea. cbn [bind fst snd].
  destruct (Nat.lt_ge_cases ay ah) as [Hy|Hy];
    [destruct (Nat.lt_ge_cases ax aw) as [Hx|Hx]|].
  - left. split; [exact Hy|]. split; [exact Hx|]. cbv zeta.
    assert (Hin : anchor_inside (grid3 affines 6 ah aw) (Z.of_nat ay) (Z.of_nat ax))
      by (unfold anchor_inside; simpl; lia).
    pose proof (get_bounds_rows (grid3 affines 6 ah aw) (Z.of_nat ay) (Z.of_nat ax)
                  Hwf3 eq_refl Hin) as Hrows.
    cbv zeta in Hrows. cbn [Np.dim1 Np.dim2 grid3] in Hrows.
    rewrite (nat_index_id ay ah Hy), (nat_index_id ax aw Hx) in Hrows.
    destruct Hrows as (x0 & y0 & x1 & y1 & x2 & y2 & x3 & y3 & E & Hc).
    exists x0, y0, x1, y1, x2, y2, x3, y3. split; [exact Hc|].
    rewrite E. reflexivity.
  - right. split; [lia|].
    rewrite get_bounds_index_error by (simpl; lia). reflexivity.
  - right. split; [lia|].
    rewrite get_bounds_index_error by (simpl; lia). reflexivity.
Qed.

Lemma predict_shape_disagreement_witness :
  let img := image_100x50 in
  let Net := fixed_forward_on (forward_probs_3x3, forward_affines 2) in
  let probs := {| Nd.shape := [3; 3]%nat; Nd.data := take 9 (Nd.data forward_probs_3x3) |} in
  let affines := {| Nd.shape := [6; 2; 2]%nat; Nd.data := Nd.data (forward_affines 2) |} in
  exists (ay ax : nat) (m : Q),
    Predictor._get_max_anchor probs = Return [Z.of_nat ay; Z.of_nat ax] /\
    NdOps.amax probs = Return m /\
    (((ay < 2)%nat /\ (ax < 2)%nat /\
      let theta i j := Np.get3 (grid3 affines 6 2 2) (3 * i + j) ay ax in
      let corner := spec_corner theta (Z.of_nat ay) (Z.of_nat ax) 2 2 in
      exists x0 y0 x1 y1 x2 y2 x3 y3,
        ((x0 == fst (corner 0%nat)) /\ (y0 == snd (corner 0%nat)) /\
         (x1 == fst (corner 1%nat)) /\ (y1 == snd (corner 1%nat)) /\
         (x2 == fst (corner 2%nat)) /\ (y2 == snd (corner 2%nat)) /\
         (x3 == fst (corner 3%nat)) /\ (y3 == snd (corner 3%nat)))%Q /\
        Predictor.predict int32_min img
        = Return {| image := img;
                    bounds :=
                      [[pixel int32_min x0 (width img); pixel int32_min y0 (height img)];
                       [pixel int32_min x1 (width img); pixel int32_min y1 (height img)];
                       [pixel int32_min x2 (width img); pixel int32_min y2 (height img)];
                       [pixel int32_min x3 (width img); pixel int32_min y3 (height img)]];
                    confidence := m |})
     \/
     (~ ((ay < 2)%nat /\ (ax < 2)%nat) /\
      Predictor.predict int32_min img = Raise "IndexError")).
Proof.
  intros img Net probs affines.
  apply (predict_shape_disagreement (Net := Net) int32_min img
           {| bm_height := 576; bm_width := 1152 |} probs affines 3 3 2 2);
    [reflexivity | reflexivity | reflexivity | reflexivity | reflexivity | reflexivity
    | lia | lia | congruence].
Defined.

(** C6 as stated fails.  A network with a 2 x 2 probability grid and a 3 x 3
    affine grid makes [predict] return a prediction, decoded at anchor
    (1, 1) of the 3 x 3 grid; one with a 3 x 3 probability grid and a 2 x 2
    affine grid makes it raise [IndexError]; neither raises
    [ShapeMismatchError]. *)
Lemma predict_shape_mismatch_not_reported :
  let resized := {| bm_height := 576; bm_width := 1152 |} in
  (exists probs affines,
     Inference._inference (Net := fixed_forward_on (forward_probs_2x2, forward_affines 3))
       resized = Return (probs, affines) /\
     Nd.shape probs = [2; 2]%nat /\ Nd.shape affines = [6; 3; 3]%nat) /\
  Predictor.predict (Net := fixed_forward_on (forward_probs_2x2, forward_affines 3))
    int32_min image_100x50
  = Return {| image := image_100x50;
              bounds := [[-79; -39]; [179; -39]; [179; 89]; [-79; 89]];
              confidence := 0.9 |} /\
  ~ raises (Predictor.predict (Net := fixed_forward_on (forward_probs_2x2, forward_affines 3))
              int32_min image_100x50) "ShapeMismatchError" /\
  (exists probs affines,
     Inference._inference (Net := fixed_forward_on (forward_probs_3x3, forward_affines 2))
       resized = Return (probs, affines) /\
     Nd.shape probs = [3; 3]%nat /\ Nd.shape affines = [6; 2; 2]%nat) /\
  Predictor.predict (Net := fixed_forward_on (forward_probs_3x3, forward_affines 2))
    int32_min image_100x50
  = Raise "IndexError".
Proof.
  intros resized.
  split; [do 2 eexists; split; [vm_compute; reflexivity|split; reflexivity]|].
  split; [vm_compute; reflexivity|].
  split; [unfold raises; vm_compute; discriminate|].
  split; [do 2 eexists; split; [vm_compute; reflexivity|split; reflexivity]|].
  vm_compute. reflexivity.
Qed.

(** X12. When the forward pass returns probabilities of shape
    (1, 2, grid_h, grid_w) and affine parameters of shape
    (1, 6, grid_h, grid_w) with at least 2 rows and 2 columns, [predict]
    returns.  The prediction carries the image it was given (not the
    resized one), a quadrilateral of 4 rows of 2 integers, and a confidence
    that no probability of channel 0 exceeds. *)
Theorem predict_returns_on_agreeing_grids {Image : Type} {PIL : PILImage Image}
    {Net : Forward Image} (int32_overflow : Z -> Z) (img resized : Image)
    (P A : Nd.ndarray) (gh gw : nat) :
  _resize_to_fixed_ratio img = Return resized ->
  forward resized = Return (P, A) ->
  Nd.wf P ->
  Nd.shape P = [1; 2; gh; gw]%nat -> Nd.shape A = [1; 6; gh; gw]%nat ->
  (2 <= gh)%nat -> (2 <= gw)%nat ->
  exists pred,
    Predictor.predict int32_overflow img = Return pred /\
    image pred = img /\
    (exists x0 y0 x1 y1 x2 y2 x3 y3 : Z,
       bounds pred = [[x0; y0]; [x1; y1]; [x2; y2]; [x3; y3]]) /\
    (forall y x v, (y < gh)%nat -> (x < gw)%nat ->
       Nd.get4 P 0 0 y x = Some v -> (v <= confidence pred)%Q).
Proof.
  intros Hresize Hf HwfP HP HA Hgh Hgw.
  pose proof (inference_general resized P A gh gw Hf HP HA) as Hinfer.
  assert (Efilter : filter (fun d => d <> 1%nat) [gh; gw] = [gh; gw]).
  { rewrite !filter_cons, filter_nil.
    destruct (decide (gh <> 1%nat)); [|lia]. destruct (decide (gw <> 1%nat)); [|lia].
    reflexivity. }
  rewrite Efilter in Hinfer.
  set (probs := {| Nd.shape := [gh; gw]; Nd.data := take (gh * gw) (Nd.data P) |}) in *.
  set (affines := {| Nd.shape := [6%nat; gh; gw]; Nd.data := Nd.data A |}) in *.
  assert (Hlen : length (Nd.data P) = (2 * (gh * gw))%nat).
  { unfold Nd.wf in HwfP. rewrite HP in HwfP. cbn in HwfP. lia. }
  assert (Hwf2 : Np.wf2 (grid2 probs gh gw)).
  { unfold Np.wf2. cbn. rewrite length_take. lia. }
  destruct (get_max_anchor_spec (grid2 probs gh gw) Hwf2) as
    (ay & ax & Ea & Hay & Hax & Em & Hmax & _); [simpl; lia|simpl; lia|].
  rewrite (pipeline_on_grids int32_overflow img resized probs affines Hresize Hinfer
             gh gw 6 gh gw eq_refl eq_refl).
  rewrite Em, Ea. cbn [bind fst snd].
  destruct (get_bounds_returns (grid3 affines 6 gh gw) ay ax eq_refl Hay Hax) as [[a' b] Hr].
  rewrite Hr. cbn [bind snd].
  destruct (get_bounds_shape _ _ _ _ _ Hr) as (x0 & y0 & x1 & y1 & x2 & y2 & x3 & y3 & ->).
  eexists. split; [reflexivity|]. cbn [image bounds confidence].
  split; [reflexivity|]. split; [cbn [map]; do 8 eexists; reflexivity|].
  intros y x v Hy Hx Hv.
  specialize (Hmax y x Hy Hx).
  assert (Hoff : (y * gw + x < gh * gw)%nat).
  { apply Nat.lt_le_trans with (S y * gw)%nat; [simpl; lia|].
    apply Nat.mul_le_mono_r. lia. }
  assert (Ev : Np.get2 (grid2 probs gh gw) y x = v).
  { unfold Np.get2, Np.read, Np.offset2. cbn [grid2 Np.data2 Np.cols probs Nd.data].
    rewrite lookup_take_lt by exact Hoff.
    unfold Nd.get4 in Hv. rewrite HP in Hv.
    replace (((0 * 2 + 0) * gh + y) * gw + x)%nat with (y * gw + x)%nat in Hv by lia.
    now rewrite Hv. }
  now rewrite <- Ev.
Qed.

Lemma predict_returns_on_agreeing_grids_witness :
  exists pred,
    Predictor.predict (Net := fixed_forward_on (forward_probs_2x2, forward_affines 2))
      int32_min image_100x50 = Return pred /\
    image pred = image_100x50 /\
    (exists x0 y0 x1 y1 x2 y2 x3 y3 : Z,
       bounds pred = [[x0; y0]; [x1; y1]; [x2; y2]; [x3; y3]]) /\
    (forall y x v, (y < 2)%nat -> (x < 2)%nat ->
       Nd.get4 forward_probs_2x2 0 0 y x = Some v -> (v <= confidence pred)%Q).
Proof.
  apply (predict_returns_on_agreeing_grids
           (Net := fixed_forward_on (forward_probs_2x2, forward_affines 2)) int32_min
           image_100x50 {| bm_height := 576; bm_width := 1152 |}
           forward_probs_2x2 (forward_affines 2) 2 2);
    [reflexivity | reflexivity | reflexivity | reflexivity | reflexivity | lia | lia].
Defined.

(** X22. When the network's grid has a single row or a single column, the
    squeeze in [_inference] drops that axis, the anchor no longer unpacks
    into two indices, and [predict] raises [ValueError]. *)
Theorem predict_singleton_grid {Image : Type} {PIL : PILImage Image}
    {Net : Forward Image} (int32_overflow : Z -> Z) (img resized : Image)
    (P A : Nd.ndarray) (gh gw : nat) :
  _resize_to_fixed_ratio img = Return resized ->
  forward resized = Return (P, A) ->
  Nd.shape P = [1; 2; gh; gw]%nat -> Nd.shape A = [1; 6; gh; gw]%nat ->
  gh = 1%nat \/ gw = 1%nat ->
  Predictor.predict int32_overflow img = Raise "ValueError".
Proof.
  intros Hresize Hf HP HA Hone.
  pose proof (inference_general resized P A gh gw Hf HP HA) as Hinfer.
  apply (pipeline_bad_rank int32_overflow img resized _ _ Hresize Hinfer).
  cbn [Nd.shape]. rewrite !filter_cons, filter_nil.
  destruct (decide (gh <> 1%nat)); destruct (decide (gw <> 1%nat)); simpl; lia.
Qed.

Lemma predict_singleton_grid_witness :
  Predictor.predict
    (Net := fixed_forward_on
              ({| Nd.shape := [1; 2; 1; 3]%nat;
                  Nd.data := [0.1; 0.7; 0.2; 0.9; 0.3; 0.8]%Q |},
               {| Nd.shape := [1; 6; 1; 3]%nat; Nd.data := replicate 18 0%Q |}))
    int32_min image_100x50
  = Raise "ValueError".
Proof.
  apply (predict_singleton_grid
           (Net := fixed_forward_on
              ({| Nd.shape := [1; 2; 1; 3]%nat;
                  Nd.data := [0.1; 0.7; 0.2; 0.9; 0.3; 0.8]%Q |},
               {| Nd.shape := [1; 6; 1; 3]%nat; Nd.data := replicate 18 0%Q |}))
           int32_min image_100x50 {| bm_height := 576; bm_width := 1152 |}
           {| Nd.shape := [1; 2; 1; 3]%nat; Nd.data := [0.1; 0.7; 0.2; 0.9; 0.3; 0.8]%Q |}
           {| Nd.shape := [1; 6; 1; 3]%nat; Nd.data := replicate 18 0%Q |} 1 3);
    [reflexivity | reflexivity | reflexivity | reflexivity | left; reflexivity].
Defined.

(** ** Degenerate inputs of [predict] *)

(** X13. A network output whose selected anchor has non-positive scale
    terms and zero shear terms makes [predict] return a degenerate
    prediction: its four corners are one pixel, so they are collinear. *)
Theorem predict_degenerate {Image : Type} {PIL : PILImage Image} {Net : Forward Image}
    (int32_overflow : Z -> Z) (img resized : Image) (probs affines : Nd.ndarray)
    (gh gw ah aw y x : nat) :
  _resize_to_fixed_ratio img = Return resized ->
  Inference._inference resized = Return (probs, affines) ->
  Nd.shape probs = [gh; gw] -> Nd.shape affines = [6%nat; ah; aw] ->
  Nd.wf affines ->
  Predictor._get_max_anchor probs = Return [Z.of_nat y; Z.of_nat x] ->
  (y < ah)%nat -> (x < aw)%nat ->
  (Np.get3 (grid3 affines 6 ah aw) 0 y x <= 0)%Q ->
  (Np.get3 (grid3 affines 6 ah aw) 4 y x <= 0)%Q ->
  (Np.get3 (grid3 affines 6 ah aw) 1 y x == 0)%Q ->
  (Np.get3 (grid3 affines 6 ah aw) 3 y x == 0)%Q ->
  exists pred px py,
    Predictor.predict int32_overflow img = Return pred /\
    bounds pred = [[px; py]; [px; py]; [px; py]; [px; py]] /\
    collinear (bounds pred).
Proof.
  intros Hresize Hinfer Hp Ha Hwfa Hanchor Hy Hx H00 H11 H01 H10.
  set (a := grid3 affines 6 ah aw) in *.
  pose proof (grid3_wf affines 6 ah aw Hwfa Ha) as Hwf. fold a in Hwf.
  rewrite (pipeline_anchor_rank2 probs gh gw Hp) in Hanchor.
  destruct (_get_max_anchor (grid2 probs gh gw)) as [[ay ax]|] eqn:Ea;
    cbn [bind fst snd] in Hanchor; [|discriminate].
  injection Hanchor as -> ->.
  destruct (amax_of_anchor _ _ Ea) as [m Em].
  rewrite (pipeline_on_grids int32_overflow img resized probs affines Hresize Hinfer
             gh gw 6 ah aw Hp Ha).
  rewrite Em, Ea. cbn [bind fst snd]. fold a.
  assert (Hin : anchor_inside a (Z.of_nat y) (Z.of_nat x))
    by (unfold anchor_inside; simpl; lia).
  pose proof (get_bounds_rows a (Z.of_nat y) (Z.of_nat x) Hwf eq_refl Hin) as Hc.
  cbv zeta in Hc. cbn [Np.dim1 Np.dim2 a grid3] in Hc.
  rewrite (nat_index_id y _ Hy), (nat_index_id x _ Hx) in Hc. fold a in Hc.
  destruct Hc as (x0 & y0 & x1 & y1 & x2 & y2 & x3 & y3 & E &
                  Hx0 & Hy0 & Hx1 & Hy1 & Hx2 & Hy2 & Hx3 & Hy3).
  assert (Hgw : ~ (inject_Z (Z.of_nat aw) == 0)%Q) by (apply inject_Z_nonzero; lia).
  assert (Hgh : ~ (inject_Z (Z.of_nat ah) == 0)%Q) by (apply inject_Z_nonzero; lia).
  assert (Hsame : (x1 == x0 /\ x2 == x0 /\ x3 == x0 /\ y1 == y0 /\ y2 == y0 /\ y3 == y0)%Q).
  { rewrite Hx0, Hy0, Hx1, Hy1, Hx2, Hy2, Hx3, Hy3.
    unfold spec_corner, Qx, Qy. cbn -[Np.get3 Qplus Qmult Qdiv inject_Z Py.max].
    rewrite (Py_max_0_of_nonpos _ H00), (Py_max_0_of_nonpos _ H11), H01, H10.
    repeat split; field; assumption. }
  destruct Hsame as (Hx1' & Hx2' & Hx3' & Hy1' & Hy2' & Hy3').
  rewrite E. cbn [bind snd].
  do 3 eexists. split; [reflexivity|]. cbn [bounds map].
  assert (Eb : forall (p q : Q) (k : Z), (p == q)%Q ->
             pixel int32_overflow p k = pixel int32_overflow q k).
  { intros p q k Hpq. unfold pixel. apply astype_int32_comp. now rewrite Hpq. }
  unfold Np.read. cbn [lookup list_lookup default from_option].
  rewrite (Eb x1 x0 _ Hx1'), (Eb x2 x0 _ Hx2'), (Eb x3 x0 _ Hx3').
  rewrite (Eb y1 y0 _ Hy1'), (Eb y2 y0 _ Hy2'), (Eb y3 y0 _ Hy3').
  split; [reflexivity|].
  unfold collinear, cross. cbn -[pixel Z.mul Z.sub]. lia.
Qed.

Lemma predict_degenerate_witness :
  exists pred px py,
    Predictor.predict (Net := fixed_forward_on (forward_probs_2x2, forward_affines_collapsed))
      int32_min image_100x50 = Return pred /\
    bounds pred = [[px; py]; [px; py]; [px; py]; [px; py]] /\
    collinear (bounds pred).
Proof.
  apply (predict_degenerate
           (Net := fixed_forward_on (forward_probs_2x2, forward_affines_collapsed))
           int32_min image_100x50 {| bm_height := 576; bm_width := 1152 |}
           {| Nd.shape := [2; 2]%nat; Nd.data := take 4 (Nd.data forward_probs_2x2) |}
           {| Nd.shape := [6; 2; 2]%nat; Nd.data := Nd.data forward_affines_collapsed |}
           2 2 2 2 1 1);
    [reflexivity | reflexivity | reflexivity | reflexivity | reflexivity | reflexivity
    | lia | lia
    | vm_compute; discriminate | vm_compute; discriminate | reflexivity | reflexivity].
Defined.

(** X14. On an image with a zero height or width (and no negative side)
    [predict] raises [ZeroDivisionError], whatever the image library and the
    network are: neither is reached. *)
Theorem predict_zero_dimension {Image : Type} {PIL : PILImage Image} {Net : Forward Image}
    (int32_overflow : Z -> Z) (img0 : Image) :
  Z.min (height img0) (width img0) = 0 ->
  Predictor.predict int32_overflow img0 = Raise "ZeroDivisionError".
Proof.
  intros Hz. unfold Predictor.predict, _resize_to_fixed_ratio, reg_size, factor, bound_dim,
    side, wh_ratio, Py.truediv.
  rewrite Hz. reflexivity.
Qed.

Lemma predict_zero_dimension_witness :
  Predictor.predict (Net := fixed_forward_on (forward_probs_2x2, forward_affines 2))
    int32_min {| bm_height := 0; bm_width := 5 |}
  = Raise "ZeroDivisionError".
Proof.
  apply (predict_zero_dimension (Net := fixed_forward_on (forward_probs_2x2, forward_affines 2))
           int32_min {| bm_height := 0; bm_width := 5 |}).
  reflexivity.
Defined.

(** X15. When [_inference] returns an empty probability array, [predict]
    raises [ValueError] before the affine array is touched. *)
Theorem predict_empty_grid {Image : Type} {PIL : PILImage Image} {Net : Forward Image}
    (int32_overflow : Z -> Z) (img resized : Image) (probs affines : Nd.ndarray) :
  _resize_to_fixed_ratio img = Return resized ->
  Inference._inference resized = Return (probs, affines) ->
  Nd.data probs = [] ->
  Predictor.predict int32_overflow img = Raise "ValueError".
Proof.
  intros Hresize Hinfer He. unfold Predictor.predict. rewrite Hresize. cbn [bind].
  rewrite Hinfer. cbn [bind]. unfold NdOps.amax. rewrite He. reflexivity.
Qed.

Lemma predict_empty_grid_witness :
  Predictor.predict
    (Net := fixed_forward_on ({| Nd.shape := [1; 2; 0; 3]%nat; Nd.data := [] |},
                              {| Nd.shape := [1; 6; 0; 3]%nat; Nd.data := [] |}))
    int32_min image_100x50
  = Raise "ValueError".
Proof.
  apply (predict_empty_grid
           (Net := fixed_forward_on ({| Nd.shape := [1; 2; 0; 3]%nat; Nd.data := [] |},
                                     {| Nd.shape := [1; 6; 0; 3]%nat; Nd.data := [] |}))
           int32_min image_100x50 {| bm_height := 576; bm_width := 1152 |}
           {| Nd.shape := [0; 3]%nat; Nd.data := [] |}
           {| Nd.shape := [6; 0; 3]%nat; Nd.data := [] |});
    reflexivity.
Defined.

(** ** The orientation of the decoded quadrilateral *)

(** X23. In exact arithmetic, twice the signed area of the triangle of the
    first, second and fourth returned corners is
    7.75^2 * (max(theta00, 0) * max(theta11, 0) - theta01 * theta10)
    / (grid_w * grid_h): when the product of the shear terms exceeds the
    product of the clamped scale terms, it is negative and the quadrilateral
    is mirrored, the clamp notwithstanding. *)
Theorem get_bounds_signed_area (a : Np.ndarray3) (anchor_y anchor_x : Z) :
  Np.wf3 a -> Np.dim0 a = 6%nat -> anchor_inside a anchor_y anchor_x ->
  let y := Z.to_nat (anchor_y mod Z.of_nat (Np.dim1 a)) in
  let x := Z.to_nat (anchor_x mod Z.of_nat (Np.dim2 a)) in
  let det := (Py.max (Np.get3 a 0 y x) 0 * Py.max (Np.get3 a 4 y x) 0
              - Np.get3 a 1 y x * Np.get3 a 3 y x)%Q in
  exists a' x0 y0 x1 y1 x2 y2 x3 y3,
    _get_bounds a anchor_y anchor_x
    = Return (a', [[x0; y0]; [x1; y1]; [x2; y2]; [x3; y3]]) /\
    ((x1 - x0) * (y3 - y0) - (x3 - x0) * (y1 - y0)
     == 7.75 * 7.75 * det
        / (inject_Z (Z.of_nat (Np.dim2 a)) * inject_Z (Z.of_nat (Np.dim1 a))))%Q /\
    ((det < 0)%Q -> ((x1 - x0) * (y3 - y0) - (x3 - x0) * (y1 - y0) < 0)%Q).
Proof.
  intros Hwf Hdim0 Hin y x det.
  destruct (get_bounds_rows a anchor_y anchor_x Hwf Hdim0 Hin)
    as (x0 & y0 & x1 & y1 & x2 & y2 & x3 & y3 & E &
        Hx0 & Hy0 & Hx1 & Hy1 & Hx2 & Hy2 & Hx3 & Hy3).
  exists (clamped a y x), x0, y0, x1, y1, x2, y2, x3, y3. split; [exact E|].
  destruct Hin as [Hy Hx].
  pose proof (grid_dim_pos _ _ Hy) as Hgh. pose proof (grid_dim_pos _ _ Hx) as Hgw.
  assert (Ngw : ~ (inject_Z (Z.of_nat (Np.dim2 a)) == 0)%Q) by (apply inject_Z_nonzero; lia).
  assert (Ngh : ~ (inject_Z (Z.of_nat (Np.dim1 a)) == 0)%Q) by (apply inject_Z_nonzero; lia).
  assert (Earea : ((x1 - x0) * (y3 - y0) - (x3 - x0) * (y1 - y0)
     == 7.75 * 7.75 * det
        / (inject_Z (Z.of_nat (Np.dim2 a)) * inject_Z (Z.of_nat (Np.dim1 a))))%Q).
  { rewrite Hx0, Hy0, Hx1, Hy1, Hx3, Hy3.
    unfold spec_corner, Qx, Qy, det. cbn -[Np.get3 Qplus Qmult Qdiv inject_Z Py.max].
    fold y x. field. split; assumption. }
  split; [exact Earea|].
  intros Hdet. rewrite Earea.
  set (g := (inject_Z (Z.of_nat (Np.dim2 a)) * inject_Z (Z.of_nat (Np.dim1 a)))%Q).
  assert (Hg : (0 < g)%Q) by (unfold g; apply Qmult_lt_0_compat; assumption).
  unfold Qdiv. rewrite <- (Qmult_0_l (/ g)).
  apply Qmult_lt_compat_r; [now apply Qinv_lt_0_compat|].
  lra.
Qed.

Lemma get_bounds_signed_area_witness :
  let a := sheared_1x1 in
  let y := Z.to_nat (0 mod Z.of_nat (Np.dim1 a)) in
  let x := Z.to_nat (0 mod Z.of_nat (Np.dim2 a)) in
  let det := (Py.max (Np.get3 a 0 y x) 0 * Py.max (Np.get3 a 4 y x) 0
              - Np.get3 a 1 y x * Np.get3 a 3 y x)%Q in
  (det < 0)%Q /\
  exists a' x0 y0 x1 y1 x2 y2 x3 y3,
    _get_bounds a 0 0
    = Return (a', [[x0; y0]; [x1; y1]; [x2; y2]; [x3; y3]]) /\
    ((x1 - x0) * (y3 - y0) - (x3 - x0) * (y1 - y0)
     == 7.75 * 7.75 * det
        / (inject_Z (Z.of_nat (Np.dim2 a)) * inject_Z (Z.of_nat (Np.dim1 a))))%Q /\
    ((det < 0)%Q -> ((x1 - x0) * (y3 - y0) - (x3 - x0) * (y1 - y0) < 0)%Q).
Proof.
  intros a y x det. split; [reflexivity|].
  apply (get_bounds_signed_area sheared_1x1 0 0);
    [reflexivity | reflexivity | unfold anchor_inside; simpl; lia].
Defined.

(** ** [predict], then [annotate] *)

(** What [predict] returns carries the image it was given and a
    quadrilateral of 4 rows of 2 integers. *)
Lemma pipeline_shape {Image : Type} {PIL : PILImage Image} {Net : Forward Image}
    (int32_overflow : Z -> Z) (img : Image) (pred : Prediction Image) :
  Predictor.predict int32_overflow img = Return pred ->
  image pred = img /\
  exists x0 y0 x1 y1 x2 y2 x3 y3 : Z,
    bounds pred = [[x0; y0]; [x1; y1]; [x2; y2]; [x3; y3]].
Proof.
  unfold Predictor.predict.
  destruct (_resize_to_fixed_ratio img) as [resized|]; cbn [bind]; [|discriminate].
  destruct (Inference._inference resized) as [[probs affines]|]; cbn [bind]; [|discriminate].
  destruct (NdOps.amax probs) as [m|]; cbn [bind]; [|discriminate].
  destruct (Predictor._get_max_anchor probs) as [anchor|]; cbn [bind]; [|discriminate].
  destruct (unpack_anchor anchor) as [[ay ax]|]; cbn [bind]; [|discriminate].
  unfold Predictor._get_bounds.
  destruct (Nd.shape affines) as [|d0 [|d1 [|d2 [|d3 s]]]]; cbn [bind]; try discriminate.
  - destruct (_get_bounds (grid3 affines d0 d1 d2) ay ax) as [[a' b]|] eqn:E; cbn [bind];
      [|discriminate].
    destruct (get_bounds_shape _ _ _ _ _ E) as (x0 & y0 & x1 & y1 & x2 & y2 & x3 & y3 & ->).
    intros [= <-]. cbn [image bounds]. split; [reflexivity|].
    cbn [map Np.map_column]. do 8 eexists. reflexivity.
  - destruct (Np.index ay d1); cbn [bind]; [|discriminate].
    destruct (Np.index ax d2); cbn [bind]; discriminate.
Qed.

(** X17. [annotate] on a prediction that [predict] returned, through the
    repository's [_inference], draws on a copy of the image [predict] was
    given: the comprehension over the bounds finds 4 rows of 2 integers and
    cannot fail, so the call is the drawing of those four points followed by
    the save, and it fails only where the drawing or the save fails. *)
Theorem annotate_after_predict {Image World : Type} {PIL : PILImage Image}
    {Net : Forward Image} {Draw : ImageDraw Image} {Files : ImageFile Image World}
    (int32_overflow : Z -> Z) (img : Image) (pred : Prediction Image)
    (fp outline : string) (width : Z) (fs : World) :
  Predictor.predict int32_overflow img = Return pred ->
  exists x0 y0 x1 y1 x2 y2 x3 y3 : Z,
    bounds pred = [[x0; y0]; [x1; y1]; [x2; y2]; [x3; y3]] /\
    annotate pred fp outline width fs
    = bind (polygon (copy img) [(x0, y0); (x1, y1); (x2, y2); (x3, y3)] outline width)
           (fun canvas => save canvas fp fs) /\
    (forall cls, raises (annotate pred fp outline width fs) cls <->
       raises (polygon (copy img) [(x0, y0); (x1, y1); (x2, y2); (x3, y3)] outline width) cls
       \/ exists canvas,
            polygon (copy img) [(x0, y0); (x1, y1); (x2, y2); (x3, y3)] outline width
            = Return canvas /\
            raises (save canvas fp fs) cls).
Proof.
  intros Hpred.
  destruct (pipeline_shape int32_overflow img pred Hpred)
    as (Himg & x0 & y0 & x1 & y1 & x2 & y2 & x3 & y3 & Hb).
  exists x0, y0, x1, y1, x2, y2, x3, y3.
  assert (E : annotate pred fp outline width fs
    = bind (polygon (copy img) [(x0, y0); (x1, y1); (x2, y2); (x3, y3)] outline width)
           (fun canvas => save canvas fp fs)).
  { unfold annotate. rewrite Hb, Himg. reflexivity. }
  split; [exact Hb|]. split; [exact E|].
  intros cls. rewrite E. unfold raises.
  destruct (polygon (copy img) _ outline width) as [canvas|c]; cbn [bind].
  - split.
    + intros H. right. exists canvas. split; [reflexivity|exact H].
    + intros [H | (canvas' & [= <-] & H)]; [discriminate|exact H].
  - split.
    + intros [= <-]. left. reflexivity.
    + intros [[= <-] | (canvas' & H & _)]; [reflexivity|discriminate].
Qed.

Lemma annotate_after_predict_witness :
  let Net := fixed_forward_on (forward_probs_2x2, forward_affines 2) in
  let pred := {| image := image_100x50;
                 bounds := [[-118; -59]; [268; -59]; [268; 134]; [-118; 134]];
                 confidence := 0.9%Q |} in
  exists x0 y0 x1 y1 x2 y2 x3 y3 : Z,
    bounds pred = [[x0; y0]; [x1; y1]; [x2; y2]; [x3; y3]] /\
    annotate pred "out.jpg" "red" 3 (∅ : gmap string Bitmap)
    = bind (polygon (copy image_100x50) [(x0, y0); (x1, y1); (x2, y2); (x3, y3)] "red" 3)
           (fun canvas => save canvas "out.jpg" (∅ : gmap string Bitmap)) /\
    (forall cls, raises (annotate pred "out.jpg" "red" 3 (∅ : gmap string Bitmap)) cls <->
       raises (polygon (copy image_100x50) [(x0, y0); (x1, y1); (x2, y2); (x3, y3)] "red" 3) cls
       \/ exists canvas,
            polygon (copy image_100x50) [(x0, y0); (x1, y1); (x2, y2); (x3, y3)] "red" 3
            = Return canvas /\
            raises (save canvas "out.jpg" (∅ : gmap string Bitmap)) cls).
Proof.
  intros Net pred.
  apply (annotate_after_predict (Net := Net) int32_min image_100x50 pred
           "out.jpg" "red" 3 (∅ : gmap string Bitmap)).
  vm_compute. reflexivity.
Defined.
